(** * adcc/properties.py: spectroscopic observables attached to a solver state

    A shallow embedding of [src/adcc/properties.py].

    - Scalars (numpy [float64]) are read in two ways.  Where only the
      structure of a computation matters (which object, which attribute,
      which error, how many entries, which operations in which order) they
      are real numbers.  Where the values matter, the calculators are
      embedded a second time in module [F64], over IEEE 754 binary64 with
      every operation rounded.
    - A solver state is a Python object: it lives in a store indexed by
      object identity, [copy] allocates a new identity with the same
      attributes, and attribute assignment updates the store in place.
    - Attributes the module tests with [hasattr] are optional fields.
    - Python exceptions are the left summand of a result type.
    - The collaborators that are imported from other modules
      ([AdcMethod], [HfDensityMatrix], [attach_state_densities]) are
      parameters of the development. *)

From Stdlib Require Import Floats.
From Stdlib Require Import Reals Lra String.
From stdpp Require Import gmap list.

Set Warnings "-inexact-float".

(** ** Exceptions *)

Inductive exn : Type :=
| ValueError (msg : string)
| NotImplementedError (msg : string)
| OtherError (msg : string).

Definition result (A : Type) : Type := (exn + A)%type.

Definition raise {A : Type} (e : exn) : result A := inl e.

Definition result_bind {A B : Type} (m : result A) (k : A -> result B)
  : result B :=
  match m with
  | inl e => inl e
  | inr a => k a
  end.

Notation "'try' x ':=' m 'in' k" := (result_bind m (fun x => k))
  (at level 10, x name, m at level 100, k at level 200, only parsing).

Fixpoint result_mapM {A B : Type} (f : A -> result B) (l : list A)
  : result (list B) :=
  match l with
  | [] => inr []
  | a :: l' =>
      try b := f a in
      try bs := result_mapM f l' in
      inr (b :: bs)
  end.

(** ** The numpy fragment the module uses *)

Definition sum_R (l : list R) : R := foldr Rplus 0%R l.

(** [np.linalg.norm] of a flat array: the square root of the dot product
    of the array with itself. *)
Definition np_linalg_norm (x : list R) : R :=
  sqrt (sum_R (zip_with Rmult x x)).

Definition np_abs (x : R) : R := Rabs x.

(** An array of rank one or two.  [Arr2 rows] has shape
    [(length rows, length of each row)]. *)
Inductive ndarray : Type :=
| Arr1 (v : list R)
| Arr2 (rows : list (list R)).

(** [np.array] applied to a list of equally long lists of scalars.  The
    empty list has no inner dimension to look at: the result is the empty
    array of rank one. *)
Definition np_array (rows : list (list R)) : ndarray :=
  match rows with
  | [] => Arr1 []
  | _ :: _ => Arr2 rows
  end.

Definition shape (a : ndarray) : list nat :=
  match a with
  | Arr1 v => [length v]
  | Arr2 rows => [length rows; length (hd [] rows)]
  end.

(** Iterating over an array walks its first axis; a scalar element is seen
    by [np_linalg_norm] as the one-element flat array. *)
Definition np_iter (a : ndarray) : list (list R) :=
  match a with
  | Arr1 v => map (fun x => [x]) v
  | Arr2 rows => rows
  end.

Definition broadcast_error : exn :=
  ValueError "operands could not be broadcast together".

(** Elementwise operation on two axes under numpy's broadcasting rule: the
    lengths agree, or one of them is 1. *)
Definition broadcast_axis {A : Type} (d : A) (f : A -> A -> A)
    (u v : list A) : result (list A) :=
  if Nat.eqb (length u) (length v) then inr (zip_with f u v)
  else if Nat.eqb (length u) 1 then inr (map (f (hd d u)) v)
  else if Nat.eqb (length v) 1 then inr (map (fun x => f x (hd d v)) u)
  else raise broadcast_error.

(** The same rule on the rows of two arrays of rank two; the inner axes are
    broadcast row by row. *)
Definition broadcast_rows (f : R -> R -> R) (a b : list (list R))
  : result (list (list R)) :=
  let row := fun p : list R * list R => broadcast_axis 0%R f p.1 p.2 in
  if Nat.eqb (length a) (length b) then result_mapM row (zip a b)
  else if Nat.eqb (length a) 1 then
         result_mapM (fun y => row (hd [] a, y)) b
  else if Nat.eqb (length b) 1 then
         result_mapM (fun x => row (x, hd [] b)) a
  else raise broadcast_error.

Definition np_binop (f : R -> R -> R) (a b : ndarray) : result ndarray :=
  match a, b with
  | Arr1 u, Arr1 v =>
      try w := broadcast_axis 0%R f u v in inr (Arr1 w)
  | Arr1 u, Arr2 rows =>
      try w := result_mapM (fun row => broadcast_axis 0%R f u row) rows in
      inr (Arr2 w)
  | Arr2 rows, Arr1 v =>
      try w := result_mapM (fun row => broadcast_axis 0%R f row v) rows in
      inr (Arr2 w)
  | Arr2 r1, Arr2 r2 =>
      try w := broadcast_rows f r1 r2 in inr (Arr2 w)
  end.

Definition np_add : ndarray -> ndarray -> result ndarray := np_binop Rplus.
Definition np_sub : ndarray -> ndarray -> result ndarray := np_binop Rminus.

(** Scalar times array of rank one. *)
Definition np_scale (c : R) (v : list R) : list R := map (Rmult c) v.

(** ** Collaborator data *)

(** A rank-two operator or density matrix, row by row. *)
Definition matrix : Type := list (list R).

(** Modelled from the spec: [product_trace] of [OneParticleOperator], which
    is imported by the module and not part of the sources.  It is the
    contraction primitive, "a scalar = sum(elementwise product) function
    over two equally-shaped rank-2 matrices". *)
Definition product_trace (op1 op2 : matrix) : R :=
  sum_R (zip_with (fun r1 r2 => sum_R (zip_with Rmult r1 r2)) op1 op2).

(** Modelled from the spec: class [AdcMethod], imported by the module and
    not part of the sources.  A method identifier "exposes a
    [property_method] classification string". *)
Record AdcMethod : Type := mkAdcMethod {
  name : string;
  property_method : string
}.

(** The [method] argument and the [method] attribute hold either a raw
    label or an [AdcMethod] ([isinstance(method, AdcMethod)]). *)
Inductive method_arg : Type :=
| Label (label : string)
| Method (m : AdcMethod).

Record OperatorIntegrals : Type := mkOperatorIntegrals {
  electric_dipole : option (list matrix)
}.

Record ReferenceState : Type := mkReferenceState {
  operator_integrals : OperatorIntegrals;
  nuclear_dipole : list R
}.

Record GroundState : Type := mkGroundState {
  mp2_diffdm : matrix
}.

(** The attributes of a solver state this module reads or writes.  The
    optional ones are those whose presence is tested with [hasattr] or that
    the module attaches. *)
Record SolverState : Type := mkSolverState {
  eigenvalues : list R;
  method : method_arg;
  reference_state : ReferenceState;
  ground_state : GroundState;
  state_diffdms : option (list matrix);
  ground_to_excited_tdms : option (list matrix);
  state_to_state_tdms : option (list matrix);
  attr_transition_dipole_moments : option ndarray;
  attr_oscillator_strengths : option (list R);
  attr_state_dipole_moments : option ndarray
}.

(** [state.method]. *)
Definition method_attribute (state : SolverState) : method_arg :=
  method state.

Definition hasattr {A : Type} (attribute : option A) : bool :=
  match attribute with
  | Some _ => true
  | None => false
  end.

Definition set_transition_dipole_moments (v : ndarray) (s : SolverState)
  : SolverState :=
  mkSolverState (eigenvalues s) (method s) (reference_state s)
    (ground_state s) (state_diffdms s) (ground_to_excited_tdms s)
    (state_to_state_tdms s) (Some v) (attr_oscillator_strengths s)
    (attr_state_dipole_moments s).

Definition set_oscillator_strengths (v : list R) (s : SolverState)
  : SolverState :=
  mkSolverState (eigenvalues s) (method s) (reference_state s)
    (ground_state s) (state_diffdms s) (ground_to_excited_tdms s)
    (state_to_state_tdms s) (attr_transition_dipole_moments s) (Some v)
    (attr_state_dipole_moments s).

Definition set_state_dipole_moments (v : ndarray) (s : SolverState)
  : SolverState :=
  mkSolverState (eigenvalues s) (method s) (reference_state s)
    (ground_state s) (state_diffdms s) (ground_to_excited_tdms s)
    (state_to_state_tdms s) (attr_transition_dipole_moments s)
    (attr_oscillator_strengths s) (Some v).

(** ** The object store *)

(** Object identity. *)
Abbreviation ref := positive (only parsing).

(** One recorded invocation of the density provider: the object passed, the
    three flags and the method. *)
Record DensityRequest : Type := mkDensityRequest {
  req_state : ref;
  req_state_diffdm : bool;
  req_ground_to_excited_tdm : bool;
  req_state_to_state_tdm : bool;
  req_method : option method_arg
}.

(** The store of solver-state objects, and the probe that records every
    invocation of the density provider, most recent first. *)
Record World : Type := mkWorld {
  heap : gmap positive SolverState;
  density_calls : list DensityRequest
}.

Definition M (A : Type) : Type := World -> World * result A.

Definition ret {A : Type} (a : A) : M A := fun w => (w, inr a).

Definition bind {A B : Type} (m : M A) (k : A -> M B) : M B :=
  fun w =>
    match m w with
    | (w', inl e) => (w', inl e)
    | (w', inr a) => k a w'
    end.

Notation "'do' x '<-' m ';' k" := (bind m (fun x => k))
  (at level 10, x name, m at level 100, k at level 200, only parsing).

Definition lift {A : Type} (r : result A) : M A := fun w => (w, r).

Definition dangling : exn := OtherError "no such object".

(** Read the attributes of the object [r]. *)
Definition deref (r : ref) : M SolverState :=
  fun w =>
    match heap w !! r with
    | Some s => (w, inr s)
    | None => (w, raise dangling)
    end.

(** Read an optional attribute of the object [r]; an absent one raises
    (Python's [AttributeError]). *)
Definition getattr {A : Type} (r : ref) (attribute : SolverState -> option A)
  : M A :=
  fun w =>
    match heap w !! r with
    | Some s =>
        match attribute s with
        | Some a => (w, inr a)
        | None => (w, raise (OtherError "AttributeError"))
        end
    | None => (w, raise dangling)
    end.

(** Attribute assignment on the object [r]. *)
Definition setattr (r : ref) (f : SolverState -> SolverState) : M unit :=
  fun w =>
    match heap w !! r with
    | Some s => (mkWorld (<[r := f s]> (heap w)) (density_calls w), inr tt)
    | None => (w, raise dangling)
    end.

(** [copy.copy]: a new object with the attributes of [r]. *)
Definition copy (r : ref) : M ref :=
  fun w =>
    match heap w !! r with
    | Some s =>
        let r' := fresh (dom (heap w)) in
        (mkWorld (<[r' := s]> (heap w)) (density_calls w), inr r')
    | None => (w, raise dangling)
    end.

(** The density provider acts on the store and returns an object or
    raises. *)
Definition DensityProvider : Type :=
  ref -> bool -> bool -> bool -> option method_arg ->
  gmap positive SolverState -> gmap positive SolverState * result ref.

(** ** The module *)

Section Properties.

(** [AdcMethod(label)]: the constructor from a raw label, which may
    raise. *)
Variable AdcMethod_init : string -> result AdcMethod.

(** [HfDensityMatrix(reference_state)]. *)
Variable HfDensityMatrix : ReferenceState -> matrix.

(** [attach_state_densities] of [state_densities]. *)
Variable attach_state_densities_impl : DensityProvider.

Definition attach_state_densities (state : ref)
    (state_diffdm ground_to_excited_tdm state_to_state_tdm : bool)
    (method : option method_arg) : M ref :=
  fun w =>
    let request := mkDensityRequest state state_diffdm
                     ground_to_excited_tdm state_to_state_tdm method in
    let (h', r) := attach_state_densities_impl state state_diffdm
                     ground_to_excited_tdm state_to_state_tdm method
                     (heap w) in
    (mkWorld h' (request :: density_calls w), r).

Definition transition_dipole_moments (state : SolverState)
  : result ndarray :=
  match ground_to_excited_tdms state with
  | None => raise (ValueError
      "Cannot compute transition dipole moment without transition densities.")
  | Some tdms =>
      match electric_dipole (operator_integrals (reference_state state)) with
      | None => raise (ValueError
          "Reference state cannot provide electric dipole integrals.")
      | Some dipole_integrals =>
          let tdip_moments :=
            np_array
              (map (fun tdm =>
                      map (fun comp => product_trace comp tdm)
                          dipole_integrals)
                   tdms) in
          inr tdip_moments
      end
  end.

Definition oscillator_strengths
    (transition_dipole_moments : list (list R)) (energies : list R)
  : list R :=
  let oscs :=
    np_scale (2 / 3)%R
      (zip_with (fun tdm ev => (np_linalg_norm tdm ^ 2 * np_abs ev)%R)
                transition_dipole_moments energies) in
  oscs.

(** Lines 82-85: the effective method. *)
Definition effective_method (state : SolverState)
    (method : option method_arg) : result AdcMethod :=
  let method :=
    match method with
    | None => method_attribute state
    | Some m => m
    end in
  match method with
  | Method m => inr m
  | Label label => AdcMethod_init label
  end.

Definition state_dipole_moments (state : SolverState)
    (method : option method_arg) : result ndarray :=
  match state_diffdms state with
  | None => raise (ValueError
      "Cannot compute transition dipole moment without state densities.")
  | Some diffdms =>
      match electric_dipole (operator_integrals (reference_state state)) with
      | None => raise (ValueError
          "Reference state cannot provide electric dipole integrals.")
      | Some dipole_integrals =>
          try method := effective_method state method in
          if existsb (String.eqb (property_method method))
                     ["adc0"; "adc1"]%string
          then raise (NotImplementedError
            "ADC(0) and ADC(1) state dipole moments not yet implemented.")
          else
            let hf_dm := HfDensityMatrix (reference_state state) in
            let mp2_diffdm := mp2_diffdm (ground_state state) in
            try gs_dip_moment :=
              np_sub
                (Arr1 (map (fun comp =>
                              (product_trace comp hf_dm
                               + product_trace comp mp2_diffdm)%R)
                           dipole_integrals))
                (Arr1 (nuclear_dipole (reference_state state))) in
            np_add gs_dip_moment
              (np_array
                 (map (fun ddm =>
                         map (fun comp => product_trace comp ddm)
                             dipole_integrals)
                      diffdms))
      end
  end.

Definition attach_state_properties (solver_state : ref)
    (method : option method_arg) : M ref :=
  do s <- deref solver_state;
  do solver_state <-
    (if hasattr (state_diffdms s) then ret solver_state
     else attach_state_densities solver_state true false false method);
  do s <- deref solver_state;
  do dipoles <- lift (state_dipole_moments s method);
  do _ <- setattr solver_state (set_state_dipole_moments dipoles);
  ret solver_state.

Definition attach_transition_properties (state : ref)
    (method : option method_arg) : M ref :=
  do s <- deref state;
  do state <-
    (if hasattr (ground_to_excited_tdms s) then ret state
     else attach_state_densities state false true false method);
  do s <- deref state;
  do tdip <- lift (transition_dipole_moments s);
  do _ <- setattr state (set_transition_dipole_moments tdip);
  do moments <- getattr state attr_transition_dipole_moments;
  do s <- deref state;
  do _ <- setattr state
            (set_oscillator_strengths
               (oscillator_strengths (np_iter moments) (eigenvalues s)));
  ret state.

Definition attach_properties (solver_state : ref)
    (transition_properties state_properties : bool)
    (method : option method_arg) : M ref :=
  do solver_state <- copy solver_state;
  do solver_state <-
    (if state_properties then attach_state_properties solver_state method
     else ret solver_state);
  do solver_state <-
    (if transition_properties
     then attach_transition_properties solver_state method
     else ret solver_state);
  ret solver_state.

End Properties.

(** ** The calculators in binary64

    The same calculators over IEEE 754 binary64 (Rocq's primitive floats,
    round to nearest even), with the operations of the source in the order
    of the source. *)

Module F64.

(** The dot product of two flat arrays: products accumulated from 0.0 in
    index order. *)
Definition np_dot (x y : list float) : float :=
  fold_left (fun acc p => (acc + p.1 * p.2)%float) (zip x y) 0%float.

(** [np.linalg.norm] of a flat array: the square root of the dot product
    of the array with itself. *)
Definition np_linalg_norm (x : list float) : float :=
  PrimFloat.sqrt (np_dot x x).

Definition np_abs (x : float) : float := PrimFloat.abs x.

(** [x ** 2] on a float64 scalar: the rounded product of [x] with itself. *)
Definition np_square (x : float) : float := (x * x)%float.

(** Scalar times array of rank one. *)
Definition np_scale (c : float) (v : list float) : list float :=
  map (PrimFloat.mul c) v.

Inductive ndarray : Type :=
| Arr1 (v : list float)
| Arr2 (rows : list (list float)).

Definition np_array (rows : list (list float)) : ndarray :=
  match rows with
  | [] => Arr1 []
  | _ :: _ => Arr2 rows
  end.

Definition broadcast_rows (f : float -> float -> float)
    (a b : list (list float)) : result (list (list float)) :=
  let row :=
    fun p : list float * list float => broadcast_axis 0%float f p.1 p.2 in
  if Nat.eqb (length a) (length b) then result_mapM row (zip a b)
  else if Nat.eqb (length a) 1 then
         result_mapM (fun y => row (hd [] a, y)) b
  else if Nat.eqb (length b) 1 then
         result_mapM (fun x => row (x, hd [] b)) a
  else raise broadcast_error.

Definition np_binop (f : float -> float -> float) (a b : ndarray)
  : result ndarray :=
  match a, b with
  | Arr1 u, Arr1 v =>
      try w := broadcast_axis 0%float f u v in inr (Arr1 w)
  | Arr1 u, Arr2 rows =>
      try w := result_mapM (fun row => broadcast_axis 0%float f u row) rows in
      inr (Arr2 w)
  | Arr2 rows, Arr1 v =>
      try w := result_mapM (fun row => broadcast_axis 0%float f row v) rows in
      inr (Arr2 w)
  | Arr2 r1, Arr2 r2 =>
      try w := broadcast_rows f r1 r2 in inr (Arr2 w)
  end.

Definition np_add : ndarray -> ndarray -> result ndarray :=
  np_binop PrimFloat.add.
Definition np_sub : ndarray -> ndarray -> result ndarray :=
  np_binop PrimFloat.sub.

Definition matrix : Type := list (list float).

Record OperatorIntegrals : Type := mkOperatorIntegrals {
  electric_dipole : option (list matrix)
}.

Record ReferenceState : Type := mkReferenceState {
  operator_integrals : OperatorIntegrals;
  nuclear_dipole : list float
}.

Record GroundState : Type := mkGroundState {
  mp2_diffdm : matrix
}.

Record SolverState : Type := mkSolverState {
  eigenvalues : list float;
  method : method_arg;
  reference_state : ReferenceState;
  ground_state : GroundState;
  state_diffdms : option (list matrix);
  ground_to_excited_tdms : option (list matrix);
  state_to_state_tdms : option (list matrix);
  attr_transition_dipole_moments : option ndarray;
  attr_oscillator_strengths : option (list float);
  attr_state_dipole_moments : option ndarray
}.

(** [state.method]. *)
Definition method_attribute (state : SolverState) : method_arg :=
  method state.

Definition oscillator_strengths
    (transition_dipole_moments : list (list float)) (energies : list float)
  : list float :=
  let oscs :=
    np_scale (2 / 3)%float
      (zip_with (fun tdm ev =>
                   (np_square (np_linalg_norm tdm) * np_abs ev)%float)
                transition_dipole_moments energies) in
  oscs.

Section Calculators.

(** [product_trace] of [OneParticleOperator], the contraction of two
    matrices to a scalar; in which order its sum is accumulated is not
    visible from this module. *)
Variable product_trace : matrix -> matrix -> float.

(** [AdcMethod(label)]: the constructor from a raw label, which may
    raise. *)
Variable AdcMethod_init : string -> result AdcMethod.

(** [HfDensityMatrix(reference_state)]. *)
Variable HfDensityMatrix : ReferenceState -> matrix.

(** Lines 82-85: the effective method. *)
Definition effective_method (state : SolverState)
    (method : option method_arg) : result AdcMethod :=
  let method :=
    match method with
    | None => method_attribute state
    | Some m => m
    end in
  match method with
  | Method m => inr m
  | Label label => AdcMethod_init label
  end.

Definition state_dipole_moments (state : SolverState)
    (method : option method_arg) : result ndarray :=
  match state_diffdms state with
  | None => raise (ValueError
      "Cannot compute transition dipole moment without state densities.")
  | Some diffdms =>
      match electric_dipole (operator_integrals (reference_state state)) with
      | None => raise (ValueError
          "Reference state cannot provide electric dipole integrals.")
      | Some dipole_integrals =>
          try method := effective_method state method in
          if existsb (String.eqb (property_method method))
                     ["adc0"; "adc1"]%string
          then raise (NotImplementedError
            "ADC(0) and ADC(1) state dipole moments not yet implemented.")
          else
            let hf_dm := HfDensityMatrix (reference_state state) in
            let mp2_diffdm := mp2_diffdm (ground_state state) in
            try gs_dip_moment :=
              np_sub
                (Arr1 (map (fun comp =>
                              (product_trace comp hf_dm
                               + product_trace comp mp2_diffdm)%float)
                           dipole_integrals))
                (Arr1 (nuclear_dipole (reference_state state))) in
            np_add gs_dip_moment
              (np_array
                 (map (fun ddm =>
                         map (fun comp => product_trace comp ddm)
                             dipole_integrals)
                      diffdms))
      end
  end.

End Calculators.

End F64.

(** ** Stand-ins for the binary64 calculators *)

(** A contraction that accumulates the elementwise products from 0.0, row
    after row. *)
Definition rowwise_product_trace (op1 op2 : F64.matrix) : float :=
  fold_left (fun acc p => (acc + F64.np_dot p.1 p.2)%float) (zip op1 op2)
    0%float.

(** A reference density that is the 1x1 matrix [[0.6]]. *)
Definition unit_HfDensityMatrix64 (_ : F64.ReferenceState) : F64.matrix :=
  [[0.6%float]].

(** Three 1x1 dipole-integral components and the nuclear dipole
    [0.3, 0, 0]. *)
Definition example_reference64 : F64.ReferenceState :=
  F64.mkReferenceState
    (F64.mkOperatorIntegrals (Some [[[1%float]]; [[0%float]]; [[0%float]]]))
    [0.3%float; 0%float; 0%float].

(** A solver state with the mp2 correction [[0.4]] and the given method
    and difference densities. *)
Definition example_state64 (m : method_arg)
    (diffdms : option (list F64.matrix)) : F64.SolverState :=
  F64.mkSolverState [0.5%float] m example_reference64
    (F64.mkGroundState [[0.4%float]]) diffdms None None None None None.

(** Not negative: a binary64 value that is non-negative ([0 <= x]) or
    NaN. *)
Definition not_negative (x : float) : Prop :=
  PrimFloat.leb 0 x = true \/ PrimFloat.is_nan x = true.

(** The sign of a binary64 value as [not_negative] sees it. *)
Definition SF_not_negative (x : spec_float) : bool :=
  match x with
  | S754_zero _ => true
  | S754_infinity s => negb s
  | S754_nan => true
  | S754_finite s _ _ => negb s
  end.

(** ** Stand-ins for the collaborators

    Concrete collaborators, used to run the module on explicit inputs. *)

(** A constructor that accepts every label and classifies a method by its
    label. *)
Definition label_AdcMethod (label : string) : result AdcMethod :=
  inr (mkAdcMethod label label).

(** A reference density that is the 1x1 matrix [[6/10]]. *)
Definition unit_HfDensityMatrix (_ : ReferenceState) : matrix :=
  [[(6 / 10)%R]].

Definition set_densities (state_diffdm ground_to_excited_tdm : bool)
    (ds : list matrix) (s : SolverState) : SolverState :=
  mkSolverState (eigenvalues s) (method s) (reference_state s)
    (ground_state s)
    (if state_diffdm then Some ds else state_diffdms s)
    (if ground_to_excited_tdm then Some ds else ground_to_excited_tdms s)
    (state_to_state_tdms s) (attr_transition_dipole_moments s)
    (attr_oscillator_strengths s) (attr_state_dipole_moments s).

(** A density provider that attaches the requested densities, one 1x1
    matrix per eigenvalue, to the object it is given and returns it. *)
Definition inplace_densities : DensityProvider :=
  fun state state_diffdm ground_to_excited_tdm _ _ h =>
    match h !! state with
    | Some s =>
        (<[state := set_densities state_diffdm ground_to_excited_tdm
                      (map (fun _ => [[(2 / 10)%R]]) (eigenvalues s)) s]> h,
         inr state)
    | None => (h, raise dangling)
    end.

(** A density provider that always raises. *)
Definition failing_densities : DensityProvider :=
  fun _ _ _ _ _ h => (h, raise (OtherError "no densities")).

(** ** Vocabulary of the statements *)

(** The Euclidean norm, as the claims word it. *)
Definition euclidean_norm (x : list R) : R :=
  sqrt (sum_R (map (fun c => (c ^ 2)%R) x)).

(** A density provider acts on its argument: it leaves every other
    existing object as it is, and the object it returns is its argument or
    a new one. *)
Definition acts_on_argument (provider : DensityProvider) : Prop :=
  forall (state : ref) (sd gt st : bool) (method : option method_arg)
         (h h' : gmap positive SolverState) (res : result ref),
    provider state sd gt st method h = (h', res) ->
    (forall (r : ref) (s : SolverState),
        r <> state -> h !! r = Some s -> h' !! r = Some s)
    /\ (forall r' : ref, res = inr r' -> r' = state \/ h !! r' = None).

(** [keeps r s post m]: the computation [m], started in a store where the
    object [r] has the attributes [s], ends (normally or by raising) in a
    store where it still has them, and a returned value satisfies
    [post]. *)
Definition keeps {A : Type} (r : ref) (s : SolverState) (post : A -> Prop)
    (m : M A) : Prop :=
  forall w : World,
    heap w !! r = Some s ->
    heap (m w).1 !! r = Some s
    /\ (forall a : A, (m w).2 = inr a -> post a).

(** [silent m]: the computation [m] never invokes the density provider. *)
Definition silent {A : Type} (m : M A) : Prop :=
  forall w : World, density_calls (m w).1 = density_calls w.

(** ** Example inputs *)

(** Three 1x1 dipole-integral components and the nuclear dipole
    [0.3, 0, 0]. *)
Definition example_reference : ReferenceState :=
  mkReferenceState
    (mkOperatorIntegrals (Some [[[1%R]]; [[0%R]]; [[0%R]]]))
    [(3 / 10)%R; 0%R; 0%R].

Definition example_ground : GroundState := mkGroundState [[(4 / 10)%R]].

(** A solver state with one eigenvalue and the given method and
    densities, nothing attached yet. *)
Definition example_state (m : method_arg)
    (diffdms tdms : option (list matrix)) : SolverState :=
  mkSolverState [(1 / 2)%R] m example_reference example_ground
    diffdms tdms None None None None.

Definition adc0 : AdcMethod := mkAdcMethod "adc0" "adc0".

(** A store holding one solver state, without densities, at identity 1. *)
Definition example_world : World :=
  mkWorld {[ 1%positive := example_state (Label "adc2") None None ]} [].

(** The same store, the state already holding one transition density. *)
Definition example_world_tdms : World :=
  mkWorld
    {[ 1%positive := example_state (Label "adc2") None (Some [[[1%R]]]) ]}
    [].

(** [requests P n m]: the computation [m] invokes the density provider at
    most [n] times, and every request it makes satisfies [P]. *)
Definition requests {A : Type} (P : DensityRequest -> Prop) (n : nat)
    (m : M A) : Prop :=
  forall w : World,
    exists new : list DensityRequest,
      density_calls (m w).1 = new ++ density_calls w
      /\ Forall P new
      /\ length new <= n.

(** What [attach_properties] may ask of the density provider for the
    method [method]: exactly one of the state difference densities and the
    ground-to-excited transition densities, never the state-to-state
    ones. *)
Definition one_density_kind (method : option method_arg)
    (q : DensityRequest) : Prop :=
  req_state_to_state_tdm q = false
  /\ req_state_diffdm q = negb (req_ground_to_excited_tdm q)
  /\ req_method q = method.

(** A state holding one difference density and one transition density. *)
Definition example_state_full : SolverState :=
  example_state (Label "adc2") (Some [[[(2 / 10)%R]]]) (Some [[[1%R]]]).

Definition example_world_full : World :=
  mkWorld {[ 1%positive := example_state_full ]} [].

(** A state with the transition density and a method classified adc1. *)
Definition example_world_adc1 : World :=
  mkWorld
    {[ 1%positive :=
         example_state (Label "adc1") (Some [[[(2 / 10)%R]]])
           (Some [[[1%R]]]) ]}
    [].

(** [same_inputs s s']: the attributes this module only reads have the
    same values in [s'] as in [s]. *)
Definition same_inputs (s s' : SolverState) : Prop :=
  eigenvalues s' = eigenvalues s
  /\ method s' = method s
  /\ reference_state s' = reference_state s
  /\ ground_state s' = ground_state s
  /\ state_diffdms s' = state_diffdms s
  /\ ground_to_excited_tdms s' = ground_to_excited_tdms s
  /\ state_to_state_tdms s' = state_to_state_tdms s.

(** A state with one transition density whose reference state provides
    no dipole integrals. *)
Definition example_world_no_integrals : World :=
  mkWorld
    {[ 1%positive :=
         mkSolverState [(1 / 2)%R] (Label "adc2")
           (mkReferenceState (mkOperatorIntegrals None)
              [(3 / 10)%R; 0%R; 0%R])
           example_ground None (Some [[[1%R]]]) None None None None ]}
    [].

(** A state without densities whose method is classified adc1. *)
Definition example_world_adc1_bare : World :=
  mkWorld {[ 1%positive := example_state (Label "adc1") None None ]} [].

(** [returns post m]: every value the computation [m] returns satisfies
    [post]. *)
Definition returns {A : Type} (post : A -> Prop) (m : M A) : Prop :=
  forall (w : World) (a : A), (m w).2 = inr a -> post a.

(** A density provider that, when it returns, returns the object it was
    given. *)
Definition returns_its_argument (provider : DensityProvider) : Prop :=
  forall (state : ref) (sd gt st : bool) (method : option method_arg)
         (h h' : gmap positive SolverState) (r' : ref),
    provider state sd gt st method h = (h', inr r') -> r' = state.

(** * Properties *)

(** ** Oscillator strengths *)

Section OscillatorStrengths.

Local Open Scope R_scope.

Lemma oscillator_strengths_length (tdms : list (list R)) (es : list R) :
  length (oscillator_strengths tdms es)
  = Nat.min (length tdms) (length es).
Proof.
  unfold oscillator_strengths, np_scale.
  now rewrite length_map, length_zip_with.
Qed.

Lemma oscillator_strengths_lookup (tdms : list (list R)) (es : list R)
    (i : nat) (tdm : list R) (ev : R) :
  tdms !! i = Some tdm -> es !! i = Some ev ->
  oscillator_strengths tdms es !! i
  = Some (2 / 3 * np_linalg_norm tdm ^ 2 * Rabs ev).
Proof.
  intros Ht He. unfold oscillator_strengths, np_scale, np_abs.
  rewrite list_lookup_fmap, lookup_zip_with, Ht, He. simpl.
  f_equal. ring.
Qed.

End OscillatorStrengths.

Lemma np_linalg_norm_euclidean (x : list R) :
  np_linalg_norm x = euclidean_norm x.
Proof.
  unfold np_linalg_norm, euclidean_norm. do 2 f_equal.
  induction x as [|c x IH]; simpl; [reflexivity|].
  rewrite IH. f_equal. ring.
Qed.

(** C10: on sequences of unequal lengths N and M, [oscillator_strengths]
    raises nothing and returns min(N, M) values, pairing the inputs by
    position and dropping the excess of the longer sequence. *)
Theorem oscillator_strengths_unequal_lengths
    (tdms : list (list R)) (es : list R) :
  length tdms <> length es ->
  length (oscillator_strengths tdms es)
  = Nat.min (length tdms) (length es)
  /\ (forall (i : nat) (tdm : list R) (ev : R),
         tdms !! i = Some tdm -> es !! i = Some ev ->
         oscillator_strengths tdms es !! i
         = Some (2 / 3 * euclidean_norm tdm ^ 2 * Rabs ev)%R)
  /\ (forall i : nat,
         Nat.min (length tdms) (length es) <= i ->
         oscillator_strengths tdms es !! i = None).
Proof.
  intros _. split; [|split].
  - apply oscillator_strengths_length.
  - intros i tdm ev Ht He. rewrite <- np_linalg_norm_euclidean.
    now apply oscillator_strengths_lookup.
  - intros i Hi. apply lookup_ge_None.
    now rewrite oscillator_strengths_length.
Qed.

Lemma oscillator_strengths_unequal_lengths_witness :
  length [[1; 0; 0]%R; [0; 2; 0]%R] <> length [3%R]
  /\ length (oscillator_strengths [[1; 0; 0]%R; [0; 2; 0]%R] [3%R]) = 1.
Proof.
  assert (H : length [[1; 0; 0]%R; [0; 2; 0]%R] <> length [3%R])
    by (simpl; lia).
  split; [exact H|].
  exact (proj1 (oscillator_strengths_unequal_lengths
                  [[1; 0; 0]%R; [0; 2; 0]%R] [3%R] H)).
Defined.

(** ** The pure calculators *)

Section Calculators.

Variable AdcMethod_init : string -> result AdcMethod.
Variable HfDensityMatrix : ReferenceState -> matrix.

Lemma np_array_iter (rows : list (list R)) : np_iter (np_array rows) = rows.
Proof. destruct rows; reflexivity. Qed.

Lemma np_array_shape (rows : list (list R)) (n : nat) :
  rows <> [] -> Forall (fun row => length row = n) rows ->
  shape (np_array rows) = [length rows; n].
Proof.
  destruct rows as [|row rows]; [congruence|].
  intros _ Hall. simpl. f_equal. f_equal.
  now inversion Hall.
Qed.

(** C3, as the code has it: with N >= 1 transition densities and the three
    dipole-integral matrices present, [transition_dipole_moments] returns
    an array of shape N x 3, rows in state order, whose entry at state i,
    component k is the contraction of the k-th dipole-integral matrix with
    the i-th transition density; for N = 0 it returns the empty array of
    shape (0,), which has no component axis. *)
Theorem transition_dipole_moments_entries (state : SolverState)
    (tdms dips : list matrix) :
  ground_to_excited_tdms state = Some tdms ->
  electric_dipole (operator_integrals (reference_state state))
  = Some dips ->
  length dips = 3 ->
  exists a : ndarray,
    transition_dipole_moments state = inr a
    /\ length (np_iter a) = length tdms
    /\ (tdms <> [] -> shape a = [length tdms; 3])
    /\ (tdms = [] -> a = Arr1 [] /\ shape a = [0])
    /\ (forall (i : nat) (tdm : matrix),
           tdms !! i = Some tdm ->
           exists row : list R,
             np_iter a !! i = Some row
             /\ length row = 3
             /\ (forall (k : nat) (comp : matrix),
                    dips !! k = Some comp ->
                    row !! k = Some (product_trace comp tdm))).
Proof.
  intros Ht Hd Hlen. unfold transition_dipole_moments.
  rewrite Ht, Hd. eexists. split; [reflexivity|].
  rewrite np_array_iter. split; [|split; [|split]].
  - now rewrite length_map.
  - intros Hne. rewrite (np_array_shape _ 3).
    + now rewrite length_map.
    + destruct tdms; [congruence|discriminate].
    + apply Forall_fmap, Forall_forall. intros tdm _. simpl.
      now rewrite length_map.
  - intros ->. split; reflexivity.
  - intros i tdm Hi. eexists. split; [|split].
    + rewrite list_lookup_fmap, Hi. reflexivity.
    + now rewrite length_map.
    + intros k comp Hk. now rewrite list_lookup_fmap, Hk.
Qed.

(** C7: [transition_dipole_moments] raises the precondition error
    ([ValueError]) exactly when the state lacks [ground_to_excited_tdms]
    or the operator integrals lack [electric_dipole]; in every other
    case it returns an array: nothing else is validated. *)
Theorem transition_dipole_moments_errors (state : SolverState) :
  ((exists msg : string,
       transition_dipole_moments state = inl (ValueError msg))
   <-> (ground_to_excited_tdms state = None
        \/ electric_dipole (operator_integrals (reference_state state))
           = None))
  /\ ((exists a : ndarray, transition_dipole_moments state = inr a)
      <-> (is_Some (ground_to_excited_tdms state)
           /\ is_Some (electric_dipole
                         (operator_integrals (reference_state state))))).
Proof.
  unfold transition_dipole_moments, raise.
  destruct (ground_to_excited_tdms state) as [tdms|];
    destruct (electric_dipole (operator_integrals (reference_state state)))
      as [dips|]; simpl.
  - split; split.
    + intros [msg H]. discriminate.
    + intros [H|H]; discriminate.
    + intros _. split; eauto.
    + intros _. eauto.
  - split; split.
    + intros _. now right.
    + intros _. eauto.
    + intros [a H]. discriminate.
    + intros [_ H]. now apply is_Some_None in H.
  - split; split.
    + intros _. now left.
    + intros _. eauto.
    + intros [a H]. discriminate.
    + intros [H _]. now apply is_Some_None in H.
  - split; split.
    + intros _. now left.
    + intros _. eauto.
    + intros [a H]. discriminate.
    + intros [H _]. now apply is_Some_None in H.
Qed.


(** *** State dipole moments *)

Lemma property_method_excluded (m : AdcMethod) :
  existsb (String.eqb (property_method m)) ["adc0"; "adc1"]%string = true
  <-> (property_method m = "adc0"%string
       \/ property_method m = "adc1"%string).
Proof.
  simpl. rewrite orb_false_r, orb_true_iff, !String.eqb_eq. tauto.
Qed.

(** C1, as the code has it: once [state_diffdms] and the electric dipole
    integrals are present, every effective method classified "adc0" or
    "adc1" makes [state_dipole_moments] raise [NotImplementedError],
    whatever the densities, integrals and nuclear dipole are.  When
    [state_diffdms] is absent the precondition error about the state
    densities is raised instead, and when it is present but the integrals
    are absent the one about the integrals, in both cases whatever the
    method is. *)
Theorem state_dipole_moments_not_implemented (state : SolverState)
    (method : option method_arg) :
  (state_diffdms state = None ->
   state_dipole_moments AdcMethod_init HfDensityMatrix state method
   = inl (ValueError
       "Cannot compute transition dipole moment without state densities."))
  /\ (is_Some (state_diffdms state) ->
      electric_dipole (operator_integrals (reference_state state)) = None ->
      state_dipole_moments AdcMethod_init HfDensityMatrix state method
      = inl (ValueError
          "Reference state cannot provide electric dipole integrals."))
  /\ (is_Some (state_diffdms state) ->
      is_Some (electric_dipole
                 (operator_integrals (reference_state state))) ->
      forall m : AdcMethod,
        effective_method AdcMethod_init state method = inr m ->
        (property_method m = "adc0"%string
         \/ property_method m = "adc1"%string) ->
        state_dipole_moments AdcMethod_init HfDensityMatrix state method
        = inl (NotImplementedError
            "ADC(0) and ADC(1) state dipole moments not yet implemented.")).
Proof.
  unfold state_dipole_moments, raise. split; [|split].
  - intros Hd. now rewrite Hd.
  - intros [diffdms Hd] Hi. now rewrite Hd, Hi.
  - intros [diffdms Hd] [dips Hi] m Hm Hp.
    rewrite Hd, Hi, Hm. cbn [result_bind].
    apply property_method_excluded in Hp. now rewrite Hp.
Qed.

Lemma broadcast_axis_same {A : Type} (d : A) (f : A -> A -> A)
    (u v : list A) :
  length u = length v -> broadcast_axis d f u v = inr (zip_with f u v).
Proof.
  intros H. unfold broadcast_axis.
  now rewrite (proj2 (Nat.eqb_eq _ _) H).
Qed.

Lemma result_mapM_inr {A B : Type} (f : A -> result B) (g : A -> B)
    (l : list A) :
  Forall (fun a => f a = inr (g a)) l -> result_mapM f l = inr (map g l).
Proof.
  induction 1 as [|a l Ha _ IH]; simpl; [reflexivity|].
  now rewrite Ha, IH.
Qed.

End Calculators.

(** On the example reference: one transition density [[1]] against the
    integrals [[1]], [[0]], [[0]]. *)
Lemma transition_dipole_moments_entries_witness :
  exists a : ndarray,
    transition_dipole_moments
      (example_state (Label "adc2") None (Some [[[1%R]]])) = inr a
    /\ shape a = [1; 3].
Proof.
  destruct (transition_dipole_moments_entries
              (example_state (Label "adc2") None (Some [[[1%R]]]))
              [[[1%R]]] [[[1%R]]; [[0%R]]; [[0%R]]]
              eq_refl eq_refl eq_refl)
    as (a & Ha & _ & Hshape & _).
  exists a. split; [exact Ha|]. apply Hshape. discriminate.
Defined.

(** With no transition density the result is the empty array of rank one:
    its shape is (0,), not (0, 3). *)
Lemma transition_dipole_moments_no_states :
  ground_to_excited_tdms (example_state (Label "adc2") None (Some []))
  = Some []
  /\ transition_dipole_moments (example_state (Label "adc2") None (Some []))
     = inr (Arr1 [])
  /\ shape (Arr1 []) = [0]
  /\ shape (Arr1 []) <> [0; 3].
Proof. repeat split. discriminate. Qed.

(** With the method adc0 and no [state_diffdms], the call raises the
    precondition error, not [NotImplementedError]. *)
Lemma state_dipole_moments_adc0_without_densities :
  property_method adc0 = "adc0"%string
  /\ state_dipole_moments label_AdcMethod unit_HfDensityMatrix
       (example_state (Method adc0) None None) (Some (Method adc0))
     = inl (ValueError
         "Cannot compute transition dipole moment without state densities.")
  /\ forall msg : string,
       state_dipole_moments label_AdcMethod unit_HfDensityMatrix
         (example_state (Method adc0) None None) (Some (Method adc0))
       <> inl (NotImplementedError msg).
Proof.
  split; [reflexivity|]. split; [reflexivity|].
  intros msg H. discriminate H.
Qed.

Lemma state_dipole_moments_not_implemented_witness :
  state_dipole_moments label_AdcMethod unit_HfDensityMatrix
    (example_state (Label "adc1") (Some [[[(2 / 10)%R]]]) None) None
  = inl (NotImplementedError
           "ADC(0) and ADC(1) state dipole moments not yet implemented.").
Proof.
  apply (proj2 (proj2 (state_dipole_moments_not_implemented label_AdcMethod
                         unit_HfDensityMatrix
                         (example_state (Label "adc1")
                            (Some [[[(2 / 10)%R]]]) None) None))
           (mk_is_Some _ _ eq_refl) (mk_is_Some _ _ eq_refl)
           (mkAdcMethod "adc1" "adc1"));
    [reflexivity | right; reflexivity].
Defined.

(** ** The orchestrators and the object store *)

Section Store.

Context {A B : Type}.

Lemma keeps_ret (r : ref) (s : SolverState) (post : A -> Prop) (a : A) :
  post a -> keeps r s post (ret a).
Proof.
  intros Ha w Hw. split; [exact Hw|].
  intros a' [= <-]. exact Ha.
Qed.

Lemma keeps_bind (r : ref) (s : SolverState) (mid : A -> Prop)
    (post : B -> Prop) (m : M A) (k : A -> M B) :
  keeps r s mid m ->
  (forall a : A, mid a -> keeps r s post (k a)) ->
  keeps r s post (bind m k).
Proof.
  intros Hm Hk w Hw. unfold bind.
  destruct (Hm w Hw) as [Hheap Hres].
  destruct (m w) as [w' [e|a]]; simpl in *.
  - split; [exact Hheap|]. intros b Hb. discriminate Hb.
  - apply (Hk a (Hres a eq_refl) w' Hheap).
Qed.

Lemma keeps_lift (r : ref) (s : SolverState) (x : result A) :
  keeps r s (fun _ => True) (lift x).
Proof. intros w Hw. split; [exact Hw|]. intros a _. exact I. Qed.

Lemma keeps_getattr (r : ref) (s : SolverState) (target : ref)
    (attribute : SolverState -> option A) :
  keeps r s (fun _ => True) (getattr target attribute).
Proof.
  intros w Hw. unfold getattr.
  destruct (heap w !! target) as [s'|]; [destruct (attribute s')|];
    (split; [exact Hw|]); intros ? _; exact I.
Qed.

Lemma silent_ret (a : A) : silent (ret a).
Proof. intros w. reflexivity. Qed.

Lemma silent_bind (m : M A) (k : A -> M B) :
  silent m -> (forall a : A, silent (k a)) -> silent (bind m k).
Proof.
  intros Hm Hk w. unfold bind. specialize (Hm w).
  destruct (m w) as [w' [e|a]]; simpl in *; [exact Hm|].
  now rewrite Hk.
Qed.

Lemma silent_lift (x : result A) : silent (lift x).
Proof. intros w. reflexivity. Qed.

Lemma silent_getattr (target : ref) (attribute : SolverState -> option A) :
  silent (getattr target attribute).
Proof.
  intros w. unfold getattr.
  destruct (heap w !! target) as [s'|]; [destruct (attribute s')|];
    reflexivity.
Qed.

End Store.

Lemma keeps_deref (r : ref) (s : SolverState) (target : ref) :
  keeps r s (fun _ => True) (deref target).
Proof.
  intros w Hw. unfold deref.
  destruct (heap w !! target); (split; [exact Hw|]); intros ? _; exact I.
Qed.

Lemma keeps_setattr (r : ref) (s : SolverState) (target : ref)
    (f : SolverState -> SolverState) :
  target <> r -> keeps r s (fun _ => True) (setattr target f).
Proof.
  intros Hne w Hw. unfold setattr.
  destruct (heap w !! target) as [s'|]; simpl.
  - split; [|intros a _; exact I]. now rewrite lookup_insert_ne.
  - split; [exact Hw|]. intros a _; exact I.
Qed.

Lemma keeps_copy (r : ref) (s : SolverState) (target : ref) :
  keeps r s (fun r' => r' <> r) (copy target).
Proof.
  intros w Hw. unfold copy.
  assert (Hfresh : fresh (dom (heap w)) <> r).
  { intros Heq. pose proof (is_fresh (dom (heap w))) as Hf.
    rewrite Heq in Hf. apply Hf, elem_of_dom. eauto. }
  destruct (heap w !! target) as [s'|]; simpl.
  - split; [now rewrite lookup_insert_ne|].
    intros a [= <-]. exact Hfresh.
  - split; [exact Hw|]. intros a Ha. discriminate Ha.
Qed.

Lemma silent_deref (target : ref) : silent (deref target).
Proof. intros w. unfold deref. now destruct (heap w !! target). Qed.

Lemma silent_setattr (target : ref) (f : SolverState -> SolverState) :
  silent (setattr target f).
Proof. intros w. unfold setattr. now destruct (heap w !! target). Qed.

Lemma silent_copy (target : ref) : silent (copy target).
Proof. intros w. unfold copy. now destruct (heap w !! target). Qed.

Create HintDb store discriminated.

#[export] Hint Resolve keeps_ret keeps_lift keeps_getattr keeps_deref
  keeps_setattr keeps_copy : store.
#[export] Hint Resolve silent_ret silent_lift silent_getattr silent_deref
  silent_setattr silent_copy : store.

(** One step of a [keeps] proof: split a [bind], closing the first
    computation from the hint database when it is a primitive. *)
Ltac keeps_step :=
  lazymatch goal with
  | |- keeps _ _ _ (bind _ _) =>
      eapply keeps_bind; [solve [eauto with store] | intros ? ?]
  | |- keeps _ _ _ (ret _) => apply keeps_ret
  end.

Ltac silent_step :=
  lazymatch goal with
  | |- silent (bind _ _) =>
      apply silent_bind; [solve [eauto with store] | intros ?]
  | |- silent (ret _) => apply silent_ret
  end.

Section Orchestrators.

Variable AdcMethod_init : string -> result AdcMethod.
Variable HfDensityMatrix : ReferenceState -> matrix.
Variable provider : DensityProvider.

Lemma keeps_attach_state_densities (r : ref) (s : SolverState)
    (state : ref) (sd gt st : bool) (method : option method_arg) :
  acts_on_argument provider -> state <> r ->
  keeps r s (fun r' => r' <> r)
    (attach_state_densities provider state sd gt st method).
Proof.
  intros Hloc Hne w Hw. unfold attach_state_densities.
  destruct (provider state sd gt st method (heap w)) as [h' res] eqn:Hp.
  destruct (Hloc _ _ _ _ _ _ _ _ Hp) as [Hother Hres]. simpl. split.
  - apply Hother; [congruence|exact Hw].
  - intros r' ->. destruct (Hres r' eq_refl) as [->|Hnone];
      [exact Hne|congruence].
Qed.

Lemma keeps_attach_state_properties (r : ref) (s : SolverState)
    (solver_state : ref) (method : option method_arg) :
  acts_on_argument provider -> solver_state <> r ->
  keeps r s (fun r' => r' <> r)
    (attach_state_properties AdcMethod_init HfDensityMatrix provider
       solver_state method).
Proof.
  intros Hloc Hne. unfold attach_state_properties.
  keeps_step.
  eapply keeps_bind with (mid := fun r' => r' <> r).
  { destruct (hasattr _);
      [now apply keeps_ret|now apply keeps_attach_state_densities]. }
  intros solver_state' Hne'.
  repeat keeps_step. exact Hne'.
Qed.

Lemma keeps_attach_transition_properties (r : ref) (s : SolverState)
    (state : ref) (method : option method_arg) :
  acts_on_argument provider -> state <> r ->
  keeps r s (fun r' => r' <> r)
    (attach_transition_properties provider state method).
Proof.
  intros Hloc Hne. unfold attach_transition_properties.
  keeps_step.
  eapply keeps_bind with (mid := fun r' => r' <> r).
  { destruct (hasattr _);
      [now apply keeps_ret|now apply keeps_attach_state_densities]. }
  intros state' Hne'.
  repeat keeps_step. exact Hne'.
Qed.

(** C5: [attach_properties] never mutates the caller's object: whatever
    the flags, and whether the call returns or raises, the original
    object ends with exactly the attributes it had; everything is
    attached to another object, the copy.  The density provider is
    assumed to act on the object it is given. *)
Theorem attach_properties_keeps_original (w : World) (r : ref)
    (s : SolverState) (transition_properties state_properties : bool)
    (method : option method_arg) :
  acts_on_argument provider ->
  heap w !! r = Some s ->
  heap (attach_properties AdcMethod_init HfDensityMatrix provider r
          transition_properties state_properties method w).1 !! r
  = Some s
  /\ (forall r' : ref,
         (attach_properties AdcMethod_init HfDensityMatrix provider r
            transition_properties state_properties method w).2 = inr r' ->
         r' <> r).
Proof.
  intros Hloc Hw. revert w Hw.
  change (keeps r s (fun r' => r' <> r)
            (attach_properties AdcMethod_init HfDensityMatrix provider r
               transition_properties state_properties method)).
  unfold attach_properties.
  eapply keeps_bind; [apply keeps_copy|]. intros r1 Hr1.
  eapply keeps_bind with (mid := fun r' => r' <> r).
  { destruct state_properties;
      [now apply keeps_attach_state_properties|now apply keeps_ret]. }
  intros r2 Hr2.
  eapply keeps_bind with (mid := fun r' => r' <> r).
  { destruct transition_properties;
      [now apply keeps_attach_transition_properties|now apply keeps_ret]. }
  intros r3 Hr3. now apply keeps_ret.
Qed.

(** C6: with both flags false, [attach_properties] returns a new object
    with exactly the attributes of the input; nothing else in the store
    changes and the density provider is not invoked. *)
Theorem attach_properties_no_flags (w : World) (r : ref)
    (s : SolverState) (method : option method_arg) :
  heap w !! r = Some s ->
  exists r' : ref,
    attach_properties AdcMethod_init HfDensityMatrix provider r
      false false method w
    = (mkWorld (<[r' := s]> (heap w)) (density_calls w), inr r')
    /\ r' <> r
    /\ heap w !! r' = None
    /\ <[r' := s]> (heap w) !! r' = Some s
    /\ <[r' := s]> (heap w) !! r = Some s.
Proof.
  intros Hw. exists (fresh (dom (heap w))).
  assert (Hnone : heap w !! fresh (dom (heap w)) = None).
  { apply not_elem_of_dom, is_fresh. }
  assert (Hne : fresh (dom (heap w)) <> r) by congruence.
  split; [|split; [exact Hne|split; [exact Hnone|split]]].
  - unfold attach_properties, bind, copy, ret. now rewrite Hw.
  - apply lookup_insert_eq.
  - now rewrite lookup_insert_ne.
Qed.

End Orchestrators.

(** C9: on a state that already has [ground_to_excited_tdms],
    [attach_transition_properties] does not invoke the density provider:
    its outcome is the same for every two providers, and the probe records
    no call. *)
Theorem attach_transition_properties_skips_provider
    (provider provider' : DensityProvider) (w : World) (state : ref)
    (s : SolverState) (tdms : list matrix) (method : option method_arg) :
  heap w !! state = Some s ->
  ground_to_excited_tdms s = Some tdms ->
  attach_transition_properties provider state method w
  = attach_transition_properties provider' state method w
  /\ density_calls (attach_transition_properties provider state method w).1
     = density_calls w.
Proof.
  intros Hw Htdms.
  assert (Hskip : forall p : DensityProvider,
             attach_transition_properties p state method w
             = bind (ret state)
                 (fun state =>
                    do s <- deref state;
                    do tdip <- lift (transition_dipole_moments s);
                    do _ <- setattr state
                              (set_transition_dipole_moments tdip);
                    do moments <- getattr state
                                    attr_transition_dipole_moments;
                    do s <- deref state;
                    do _ <- setattr state
                              (set_oscillator_strengths
                                 (oscillator_strengths (np_iter moments)
                                    (eigenvalues s)));
                    ret state) w).
  { intros p. unfold attach_transition_properties.
    unfold bind at 1. unfold deref at 1. rewrite Hw.
    unfold bind at 1. rewrite Htdms. reflexivity. }
  split.
  - now rewrite !Hskip.
  - rewrite Hskip. revert w Hw Hskip. intros w _ _.
    match goal with |- density_calls (?m w).1 = _ =>
      change (density_calls (m w).1 = density_calls w);
      assert (Hs : silent m); [|apply Hs]
    end.
    repeat silent_step.
Qed.

Lemma inplace_densities_acts_on_argument :
  acts_on_argument inplace_densities.
Proof.
  intros state sd gt st method h h' res Hp. unfold inplace_densities in Hp.
  destruct (h !! state) as [s0|] eqn:Hs; injection Hp as <- <-.
  - split.
    + intros r s Hne Hr. now rewrite lookup_insert_ne.
    + intros r' [= <-]. now left.
  - split; [auto|]. intros r' H. discriminate H.
Qed.

Lemma attach_properties_keeps_original_witness :
  heap (attach_properties label_AdcMethod unit_HfDensityMatrix
          inplace_densities 1%positive true true None example_world).1
    !! 1%positive
  = Some (example_state (Label "adc2") None None).
Proof.
  apply (attach_properties_keeps_original label_AdcMethod
           unit_HfDensityMatrix inplace_densities example_world 1%positive
           (example_state (Label "adc2") None None) true true None
           inplace_densities_acts_on_argument).
  reflexivity.
Defined.

Lemma attach_properties_no_flags_witness :
  exists r' : ref,
    (attach_properties label_AdcMethod unit_HfDensityMatrix
       failing_densities 1%positive false false None example_world).2
    = inr r'
    /\ r' <> 1%positive.
Proof.
  destruct (attach_properties_no_flags label_AdcMethod unit_HfDensityMatrix
              failing_densities example_world 1%positive
              (example_state (Label "adc2") None None) None eq_refl)
    as (r' & Hrun & Hne & _).
  exists r'. split; [now rewrite Hrun|exact Hne].
Defined.

Lemma attach_transition_properties_skips_provider_witness :
  density_calls
    (attach_transition_properties failing_densities 1%positive None
       example_world_tdms).1
  = [].
Proof.
  assert (Hw : heap example_world_tdms !! 1%positive
               = Some (example_state (Label "adc2") None (Some [[[1%R]]])))
    by reflexivity.
  exact (proj2 (attach_transition_properties_skips_provider
                  failing_densities inplace_densities example_world_tdms
                  1%positive _ [[[1%R]]] None Hw eq_refl)).
Defined.

Example attach_properties_example_run :
  exists (w' : World) (s' : SolverState),
    attach_properties label_AdcMethod unit_HfDensityMatrix
      inplace_densities 1%positive true true None example_world
    = (w', inr 2%positive)
    /\ heap w' !! 2%positive = Some s'
    /\ heap w' !! 1%positive = Some (example_state (Label "adc2") None None)
    /\ is_Some (attr_state_dipole_moments s')
    /\ is_Some (attr_oscillator_strengths s')
    /\ length (density_calls w') = 2.
Proof.
  eexists _, _. split; [vm_compute; reflexivity|].
  repeat split; try (vm_compute; reflexivity); vm_compute; eauto.
Qed.

(** * Further properties *)

(** ** Oscillator strengths: symmetries and composition *)

Lemma np_linalg_norm_opp (x : list R) :
  np_linalg_norm (map Ropp x) = np_linalg_norm x.
Proof.
  unfold np_linalg_norm. f_equal.
  induction x as [|y x IH]; simpl; [reflexivity|]. rewrite IH. ring.
Qed.

(** X1: the oscillator strengths do not see signs: negating every energy,
    or negating every transition dipole vector, gives the same output. *)
Theorem oscillator_strengths_sign_invariant
    (tdms : list (list R)) (es : list R) :
  oscillator_strengths tdms (map Ropp es) = oscillator_strengths tdms es
  /\ oscillator_strengths (map (map Ropp) tdms) es
     = oscillator_strengths tdms es.
Proof.
  unfold oscillator_strengths, np_scale, np_abs. split; f_equal.
  - revert es. induction tdms as [|tdm tdms IH]; intros [|ev es];
      cbn [map zip_with]; try reflexivity.
    now rewrite Rabs_Ropp, IH.
  - revert es. induction tdms as [|tdm tdms IH]; intros [|ev es];
      cbn [map zip_with]; try reflexivity.
    now rewrite np_linalg_norm_opp, IH.
Qed.

(** X4: the computation is positional and compositional: on two batches of
    states, the first with as many vectors as energies, the output is the
    output of the first batch followed by the output of the second. *)
Theorem oscillator_strengths_app (tdms1 tdms2 : list (list R))
    (es1 es2 : list R) :
  length tdms1 = length es1 ->
  oscillator_strengths (tdms1 ++ tdms2) (es1 ++ es2)
  = oscillator_strengths tdms1 es1 ++ oscillator_strengths tdms2 es2.
Proof.
  intros Hlen. unfold oscillator_strengths, np_scale.
  now rewrite zip_with_app, map_app.
Qed.

Lemma oscillator_strengths_app_witness :
  oscillator_strengths ([[1; 0; 0]%R] ++ [[0; 2; 0]%R]) ([3%R] ++ [4%R])
  = oscillator_strengths [[1; 0; 0]%R] [3%R]
    ++ oscillator_strengths [[0; 2; 0]%R] [4%R].
Proof.
  apply (oscillator_strengths_app [[1; 0; 0]%R] [[0; 2; 0]%R] [3%R] [4%R]).
  reflexivity.
Defined.

(** ** The calculators: which error, which shape *)

Section CalculatorEdges.

Variable AdcMethod_init : string -> result AdcMethod.
Variable HfDensityMatrix : ReferenceState -> matrix.

(** X5: the two precondition errors of [transition_dipole_moments] are told
    apart by their message, and the missing transition densities are
    reported first: that message is raised exactly when
    [ground_to_excited_tdms] is absent, the one about the integrals exactly
    when the densities are present and [electric_dipole] is absent. *)
Theorem transition_dipole_moments_error_message (state : SolverState) :
  (transition_dipole_moments state
   = inl (ValueError
       "Cannot compute transition dipole moment without transition densities.")
   <-> ground_to_excited_tdms state = None)
  /\ (transition_dipole_moments state
      = inl (ValueError
          "Reference state cannot provide electric dipole integrals.")
      <-> (is_Some (ground_to_excited_tdms state)
           /\ electric_dipole (operator_integrals (reference_state state))
              = None)).
Proof.
  unfold transition_dipole_moments, raise.
  destruct (ground_to_excited_tdms state) as [tdms|];
    destruct (electric_dipole (operator_integrals (reference_state state)))
      as [dips|].
  - split; split; try discriminate. intros [_ H]. discriminate H.
  - split; split; try discriminate.
    + intros _. split; [eauto|reflexivity].
    + reflexivity.
  - split; split; try reflexivity; try discriminate.
    intros [H _]. now apply is_Some_None in H.
  - split; split; try reflexivity; try discriminate.
    intros [H _]. now apply is_Some_None in H.
Qed.

(** X6: the shape of the transition dipole array for any number M of
    dipole components: (N, M) for N >= 1 transition densities, and (0,),
    with no component axis, for none. *)
Theorem transition_dipole_moments_shape (state : SolverState)
    (tdms dips : list matrix) :
  ground_to_excited_tdms state = Some tdms ->
  electric_dipole (operator_integrals (reference_state state)) = Some dips ->
  exists a : ndarray,
    transition_dipole_moments state = inr a
    /\ shape a = match tdms with
                 | [] => [0]
                 | _ :: _ => [length tdms; length dips]
                 end.
Proof.
  intros Ht Hd. unfold transition_dipole_moments. rewrite Ht, Hd.
  eexists. split; [reflexivity|].
  destruct tdms as [|tdm tdms]; [reflexivity|].
  cbn [map np_array shape hd length]. now rewrite !length_map.
Qed.

(** X7: [state_dipole_moments] never returns a value for an effective
    method classified adc0 or adc1: whatever the state holds, the call
    raises, and what it raises is one of the two precondition errors or
    [NotImplementedError]. *)
Theorem state_dipole_moments_never_adc0_adc1 (state : SolverState)
    (method : option method_arg) (m : AdcMethod) :
  effective_method AdcMethod_init state method = inr m ->
  (property_method m = "adc0"%string \/ property_method m = "adc1"%string) ->
  exists msg : string,
    state_dipole_moments AdcMethod_init HfDensityMatrix state method
    = inl (ValueError msg)
    \/ state_dipole_moments AdcMethod_init HfDensityMatrix state method
       = inl (NotImplementedError msg).
Proof.
  intros Hm Hp. unfold state_dipole_moments, raise.
  destruct (state_diffdms state) as [diffdms|]; [|eauto].
  destruct (electric_dipole (operator_integrals (reference_state state)))
    as [dips|]; [|eauto].
  rewrite Hm. cbn [result_bind].
  apply property_method_excluded in Hp. rewrite Hp. eauto.
Qed.

(** X8: the order of the failures of [state_dipole_moments].  Absent
    [state_diffdms] are reported first and absent dipole integrals second,
    in both cases whatever the method is, even a label the [AdcMethod]
    constructor rejects; the constructor's own error surfaces only when
    both are present. *)
Theorem state_dipole_moments_error_order (state : SolverState)
    (method : option method_arg) :
  match state_diffdms state,
        electric_dipole (operator_integrals (reference_state state)) with
  | None, _ =>
      state_dipole_moments AdcMethod_init HfDensityMatrix state method
      = inl (ValueError
          "Cannot compute transition dipole moment without state densities.")
  | Some _, None =>
      state_dipole_moments AdcMethod_init HfDensityMatrix state method
      = inl (ValueError
          "Reference state cannot provide electric dipole integrals.")
  | Some _, Some _ =>
      forall e : exn,
        effective_method AdcMethod_init state method = inl e ->
        state_dipole_moments AdcMethod_init HfDensityMatrix state method
        = inl e
  end.
Proof.
  unfold state_dipole_moments, raise.
  destruct (state_diffdms state) as [diffdms|]; [|reflexivity].
  destruct (electric_dipole (operator_integrals (reference_state state)))
    as [dips|]; [|reflexivity].
  intros e He. now rewrite He.
Qed.

(** X9: with no excited state, two or more dipole components and a nuclear
    dipole of as many entries, [state_dipole_moments] raises numpy's
    broadcasting error for every admissible method: the ground-state vector
    cannot be added to the empty array. *)
Theorem state_dipole_moments_no_states_raises (state : SolverState)
    (method : option method_arg) (dips : list matrix) (m : AdcMethod) :
  state_diffdms state = Some [] ->
  electric_dipole (operator_integrals (reference_state state)) = Some dips ->
  length (nuclear_dipole (reference_state state)) = length dips ->
  2 <= length dips ->
  effective_method AdcMethod_init state method = inr m ->
  property_method m <> "adc0"%string ->
  property_method m <> "adc1"%string ->
  state_dipole_moments AdcMethod_init HfDensityMatrix state method
  = inl broadcast_error.
Proof.
  intros Hd Hi Hnuc Hlen Hm H0 H1. unfold state_dipole_moments.
  rewrite Hd, Hi, Hm. cbn [result_bind].
  destruct (existsb _ _) eqn:Hex.
  { apply property_method_excluded in Hex. tauto. }
  unfold np_sub, np_add, np_binop.
  rewrite broadcast_axis_same by (now rewrite length_map).
  cbn [result_bind map np_array]. unfold broadcast_axis.
  rewrite length_zip_with, length_map, Hnuc, Nat.min_id. cbn [length].
  destruct (length dips) as [|[|n]]; [lia|lia|reflexivity].
Qed.

End CalculatorEdges.

Lemma transition_dipole_moments_shape_witness :
  exists a : ndarray,
    transition_dipole_moments
      (example_state (Label "adc2") None (Some [[[1%R]]; [[2%R]]])) = inr a
    /\ shape a = [2; 3].
Proof.
  exact (transition_dipole_moments_shape
           (example_state (Label "adc2") None (Some [[[1%R]]; [[2%R]]]))
           [[[1%R]]; [[2%R]]] [[[1%R]]; [[0%R]]; [[0%R]]]
           eq_refl eq_refl).
Defined.

Lemma state_dipole_moments_never_adc0_adc1_witness :
  exists msg : string,
    state_dipole_moments label_AdcMethod unit_HfDensityMatrix
      (example_state (Label "adc2") None None) (Some (Label "adc0"))
    = inl (ValueError msg)
    \/ state_dipole_moments label_AdcMethod unit_HfDensityMatrix
         (example_state (Label "adc2") None None) (Some (Label "adc0"))
       = inl (NotImplementedError msg).
Proof.
  apply (state_dipole_moments_never_adc0_adc1 label_AdcMethod
           unit_HfDensityMatrix (example_state (Label "adc2") None None)
           (Some (Label "adc0")) (mkAdcMethod "adc0" "adc0") eq_refl).
  left. reflexivity.
Defined.

Lemma state_dipole_moments_no_states_raises_witness :
  state_dipole_moments label_AdcMethod unit_HfDensityMatrix
    (example_state (Label "adc3") (Some []) None) None
  = inl broadcast_error.
Proof.
  apply (state_dipole_moments_no_states_raises label_AdcMethod
           unit_HfDensityMatrix
           (example_state (Label "adc3") (Some []) None) None
           [[[1%R]]; [[0%R]]; [[0%R]]] (mkAdcMethod "adc3" "adc3")
           eq_refl eq_refl eq_refl);
    [simpl; lia | reflexivity | discriminate | discriminate].
Defined.

(** ** The orchestrators: what a run leaves in the store *)

Lemma bind_run {A B : Type} (m : M A) (k : A -> M B) (w w' : World) (a : A) :
  m w = (w', inr a) -> bind m k w = k a w'.
Proof. intros H. unfold bind. now rewrite H. Qed.

Lemma bind_raise {A B : Type} (m : M A) (k : A -> M B) (w w' : World)
    (e : exn) :
  m w = (w', inl e) -> bind m k w = (w', inl e).
Proof. intros H. unfold bind. now rewrite H. Qed.

Lemma deref_run (r : ref) (w : World) (s : SolverState) :
  heap w !! r = Some s -> deref r w = (w, inr s).
Proof. intros H. unfold deref. now rewrite H. Qed.

Lemma setattr_run (r : ref) (f : SolverState -> SolverState) (w : World)
    (s : SolverState) :
  heap w !! r = Some s ->
  setattr r f w = (mkWorld (<[r := f s]> (heap w)) (density_calls w), inr tt).
Proof. intros H. unfold setattr. now rewrite H. Qed.

Lemma getattr_run {A : Type} (r : ref) (attribute : SolverState -> option A)
    (w : World) (s : SolverState) (a : A) :
  heap w !! r = Some s -> attribute s = Some a ->
  getattr r attribute w = (w, inr a).
Proof. intros H Ha. unfold getattr. now rewrite H, Ha. Qed.

Lemma copy_run (r : ref) (w : World) (s : SolverState) :
  heap w !! r = Some s ->
  copy r w
  = (mkWorld (<[fresh (dom (heap w)) := s]> (heap w)) (density_calls w),
     inr (fresh (dom (heap w)))).
Proof. intros H. unfold copy. now rewrite H. Qed.

Lemma fresh_not_allocated (h : gmap positive SolverState) :
  h !! fresh (dom h) = None.
Proof. apply not_elem_of_dom, is_fresh. Qed.

(** The exact outcome of [attach_transition_properties] on a state that has
    its transition densities. *)
Lemma run_attach_transition_properties (provider : DensityProvider)
    (state : ref) (method : option method_arg) (w : World)
    (s : SolverState) (tdms : list matrix) (a : ndarray) :
  heap w !! state = Some s ->
  ground_to_excited_tdms s = Some tdms ->
  transition_dipole_moments s = inr a ->
  attach_transition_properties provider state method w
  = (mkWorld
       (<[state := set_oscillator_strengths
                     (oscillator_strengths (np_iter a) (eigenvalues s))
                     (set_transition_dipole_moments a s)]> (heap w))
       (density_calls w),
     inr state).
Proof.
  intros Hw Htdms Ha. unfold attach_transition_properties.
  rewrite (bind_run _ _ _ _ _ (deref_run _ _ _ Hw)).
  rewrite Htdms. cbn [hasattr].
  rewrite (bind_run (ret state) _ w w state eq_refl).
  rewrite (bind_run _ _ _ _ _ (deref_run _ _ _ Hw)).
  rewrite (bind_run (lift _) _ w w a) by (unfold lift; now rewrite Ha).
  rewrite (bind_run _ _ _ _ _ (setattr_run _ _ _ _ Hw)).
  set (w1 := mkWorld _ _).
  assert (Hw1 : heap w1 !! state = Some (set_transition_dipole_moments a s))
    by apply lookup_insert_eq.
  rewrite (bind_run _ _ _ _ _
             (getattr_run state attr_transition_dipole_moments w1 _ a
                Hw1 eq_refl)).
  rewrite (bind_run _ _ _ _ _ (deref_run _ _ _ Hw1)).
  rewrite (bind_run _ _ _ _ _ (setattr_run _ _ _ _ Hw1)).
  unfold ret, w1. cbn [heap density_calls eigenvalues
                         set_transition_dipole_moments].
  now rewrite insert_insert_eq.
Qed.

(** The exact outcome of [attach_state_properties] on a state that has its
    difference densities. *)
Lemma run_attach_state_properties
    (AdcMethod_init : string -> result AdcMethod)
    (HfDensityMatrix : ReferenceState -> matrix)
    (provider : DensityProvider) (solver_state : ref)
    (method : option method_arg) (w : World) (s : SolverState)
    (diffdms : list matrix) (a : ndarray) :
  heap w !! solver_state = Some s ->
  state_diffdms s = Some diffdms ->
  state_dipole_moments AdcMethod_init HfDensityMatrix s method = inr a ->
  attach_state_properties AdcMethod_init HfDensityMatrix provider
    solver_state method w
  = (mkWorld (<[solver_state := set_state_dipole_moments a s]> (heap w))
       (density_calls w),
     inr solver_state).
Proof.
  intros Hw Hd Ha. unfold attach_state_properties.
  rewrite (bind_run _ _ _ _ _ (deref_run _ _ _ Hw)).
  rewrite Hd. cbn [hasattr].
  rewrite (bind_run (ret solver_state) _ w w solver_state eq_refl).
  rewrite (bind_run _ _ _ _ _ (deref_run _ _ _ Hw)).
  rewrite (bind_run (lift _) _ w w a) by (unfold lift; now rewrite Ha).
  rewrite (bind_run _ _ _ _ _ (setattr_run _ _ _ _ Hw)).
  reflexivity.
Qed.

(** The outcome when the calculator raises on a state that has its
    difference densities: the store is untouched. *)
Lemma run_attach_state_properties_raise
    (AdcMethod_init : string -> result AdcMethod)
    (HfDensityMatrix : ReferenceState -> matrix)
    (provider : DensityProvider) (solver_state : ref)
    (method : option method_arg) (w : World) (s : SolverState)
    (diffdms : list matrix) (e : exn) :
  heap w !! solver_state = Some s ->
  state_diffdms s = Some diffdms ->
  state_dipole_moments AdcMethod_init HfDensityMatrix s method = inl e ->
  attach_state_properties AdcMethod_init HfDensityMatrix provider
    solver_state method w
  = (w, inl e).
Proof.
  intros Hw Hd He. unfold attach_state_properties.
  rewrite (bind_run _ _ _ _ _ (deref_run _ _ _ Hw)).
  rewrite Hd. cbn [hasattr].
  rewrite (bind_run (ret solver_state) _ w w solver_state eq_refl).
  rewrite (bind_run _ _ _ _ _ (deref_run _ _ _ Hw)).
  now rewrite (bind_raise (lift _) _ w w e) by (unfold lift; now rewrite He).
Qed.

Lemma calls_after_provider {A : Type} (provider : DensityProvider)
    (state : ref) (sd gt st : bool) (method : option method_arg)
    (k : ref -> M A) (w : World) :
  (forall r : ref, silent (k r)) ->
  density_calls
    (bind (attach_state_densities provider state sd gt st method) k w).1
  = mkDensityRequest state sd gt st method :: density_calls w.
Proof.
  intros Hk. unfold bind, attach_state_densities.
  destruct (provider state sd gt st method (heap w)) as [h' [e|r']];
    cbn [fst]; [reflexivity|].
  now rewrite Hk.
Qed.

Lemma requests_silent {A : Type} (P : DensityRequest -> Prop) (m : M A) :
  silent m -> requests P 0 m.
Proof.
  intros Hm w. exists []. rewrite Hm. repeat split; [constructor|simpl; lia].
Qed.

Lemma requests_bind {A B : Type} (P : DensityRequest -> Prop) (n1 n2 : nat)
    (m : M A) (k : A -> M B) :
  requests P n1 m -> (forall a : A, requests P n2 (k a)) ->
  requests P (n1 + n2) (bind m k).
Proof.
  intros Hm Hk w. destruct (Hm w) as (new1 & Hc1 & HP1 & Hl1).
  unfold bind. destruct (m w) as [w' [e|a]]; cbn [fst] in *.
  - exists new1. split; [exact Hc1|]. split; [exact HP1|lia].
  - destruct (Hk a w') as (new2 & Hc2 & HP2 & Hl2).
    exists (new2 ++ new1). split; [|split].
    + now rewrite Hc2, Hc1, app_assoc.
    + now apply Forall_app.
    + rewrite length_app. lia.
Qed.

Lemma requests_provider (P : DensityRequest -> Prop)
    (provider : DensityProvider) (state : ref) (sd gt st : bool)
    (method : option method_arg) :
  P (mkDensityRequest state sd gt st method) ->
  requests P 1 (attach_state_densities provider state sd gt st method).
Proof.
  intros HP w. exists [mkDensityRequest state sd gt st method].
  unfold attach_state_densities.
  destruct (provider state sd gt st method (heap w)) as [h' res].
  cbn [fst density_calls]. repeat split; [now constructor|simpl; lia].
Qed.

Lemma requests_weaken {A : Type} (P : DensityRequest -> Prop) (n n' : nat)
    (m : M A) :
  n <= n' -> requests P n m -> requests P n' m.
Proof.
  intros Hn Hm w. destruct (Hm w) as (new & Hc & HP & Hl).
  exists new. repeat split; [exact Hc|exact HP|lia].
Qed.

Section OrchestratorRuns.

Variable AdcMethod_init : string -> result AdcMethod.
Variable HfDensityMatrix : ReferenceState -> matrix.
Variable provider : DensityProvider.

(** X11: on a state that has its transition densities and whose reference
    state provides the dipole integrals, [attach_transition_properties]
    works in place: it returns the very object it was given, now carrying
    the transition dipole moments and the oscillator strengths computed
    from them and the eigenvalues; the other attributes of the object and
    all other objects keep their values, and the density provider is not
    invoked. *)
Theorem attach_transition_properties_in_place (state : ref)
    (method : option method_arg) (w : World) (s : SolverState)
    (tdms : list matrix) (a : ndarray) :
  heap w !! state = Some s ->
  ground_to_excited_tdms s = Some tdms ->
  transition_dipole_moments s = inr a ->
  exists s' : SolverState,
    attach_transition_properties provider state method w
    = (mkWorld (<[state := s']> (heap w)) (density_calls w), inr state)
    /\ attr_transition_dipole_moments s' = Some a
    /\ attr_oscillator_strengths s'
       = Some (oscillator_strengths (np_iter a) (eigenvalues s))
    /\ attr_state_dipole_moments s' = attr_state_dipole_moments s
    /\ same_inputs s s'.
Proof.
  intros Hw Htdms Ha. eexists. split.
  - apply (run_attach_transition_properties provider state method w s
             tdms a Hw Htdms Ha).
  - repeat split.
Qed.

(** X12: on a state that has its transition densities but whose reference
    state has no dipole integrals, [attach_transition_properties] raises
    the precondition error and leaves the store exactly as it was: nothing
    is attached and the density provider is not invoked. *)
Theorem attach_transition_properties_no_integrals (state : ref)
    (method : option method_arg) (w : World) (s : SolverState)
    (tdms : list matrix) :
  heap w !! state = Some s ->
  ground_to_excited_tdms s = Some tdms ->
  electric_dipole (operator_integrals (reference_state s)) = None ->
  attach_transition_properties provider state method w
  = (w, inl (ValueError
       "Reference state cannot provide electric dipole integrals.")).
Proof.
  intros Hw Htdms Hd. unfold attach_transition_properties.
  rewrite (bind_run _ _ _ _ _ (deref_run _ _ _ Hw)).
  rewrite Htdms. cbn [hasattr].
  rewrite (bind_run (ret state) _ w w state eq_refl).
  rewrite (bind_run _ _ _ _ _ (deref_run _ _ _ Hw)).
  apply bind_raise. unfold lift, transition_dipole_moments.
  now rewrite Htdms, Hd.
Qed.

(** X13: on a state without transition densities,
    [attach_transition_properties] invokes the density provider exactly
    once, whatever happens afterwards, on the object it was given, with the
    method it was given, asking for the ground-to-excited transition
    densities only. *)
Theorem attach_transition_properties_request (state : ref)
    (method : option method_arg) (w : World) (s : SolverState) :
  heap w !! state = Some s ->
  ground_to_excited_tdms s = None ->
  density_calls (attach_transition_properties provider state method w).1
  = mkDensityRequest state false true false method :: density_calls w.
Proof.
  intros Hw Htdms. unfold attach_transition_properties.
  rewrite (bind_run _ _ _ _ _ (deref_run _ _ _ Hw)).
  rewrite Htdms. cbn [hasattr].
  apply calls_after_provider. intros r. repeat silent_step.
Qed.

(** X14: on a state without difference densities,
    [attach_state_properties] invokes the density provider exactly once,
    whatever happens afterwards, on the object it was given, with the method
    it was given, asking for the state difference densities only. *)
Theorem attach_state_properties_request (solver_state : ref)
    (method : option method_arg) (w : World) (s : SolverState) :
  heap w !! solver_state = Some s ->
  state_diffdms s = None ->
  density_calls
    (attach_state_properties AdcMethod_init HfDensityMatrix provider
       solver_state method w).1
  = mkDensityRequest solver_state true false false method :: density_calls w.
Proof.
  intros Hw Hd. unfold attach_state_properties.
  rewrite (bind_run _ _ _ _ _ (deref_run _ _ _ Hw)).
  rewrite Hd. cbn [hasattr].
  apply calls_after_provider. intros r. repeat silent_step.
Qed.

(** X15: an exception of the density provider passes through
    [attach_state_properties] unchanged; the store is left as the provider
    left it, without a dipole attribute attached by this module. *)
Theorem attach_state_properties_provider_raises (solver_state : ref)
    (method : option method_arg) (w : World) (s : SolverState)
    (h' : gmap positive SolverState) (e : exn) :
  heap w !! solver_state = Some s ->
  state_diffdms s = None ->
  provider solver_state true false false method (heap w) = (h', inl e) ->
  attach_state_properties AdcMethod_init HfDensityMatrix provider
    solver_state method w
  = (mkWorld h'
       (mkDensityRequest solver_state true false false method
        :: density_calls w),
     inl e).
Proof.
  intros Hw Hd Hp. unfold attach_state_properties.
  rewrite (bind_run _ _ _ _ _ (deref_run _ _ _ Hw)).
  rewrite Hd. cbn [hasattr].
  apply bind_raise. unfold attach_state_densities. now rewrite Hp.
Qed.

(** X16: the density provider runs before the method is checked.  On a
    state without difference densities, when the calculator raises on what
    the provider returns (as it does for a method classified adc0 or adc1),
    the provider has been invoked all the same, the error is passed on and
    no dipole attribute is attached. *)
Theorem attach_state_properties_raises_after_provider (solver_state : ref)
    (method : option method_arg) (w : World) (s s' : SolverState)
    (h' : gmap positive SolverState) (r' : ref) (e : exn) :
  heap w !! solver_state = Some s ->
  state_diffdms s = None ->
  provider solver_state true false false method (heap w) = (h', inr r') ->
  h' !! r' = Some s' ->
  state_dipole_moments AdcMethod_init HfDensityMatrix s' method = inl e ->
  attach_state_properties AdcMethod_init HfDensityMatrix provider
    solver_state method w
  = (mkWorld h'
       (mkDensityRequest solver_state true false false method
        :: density_calls w),
     inl e).
Proof.
  intros Hw Hd Hp Hr' He. unfold attach_state_properties.
  rewrite (bind_run _ _ _ _ _ (deref_run _ _ _ Hw)).
  rewrite Hd. cbn [hasattr].
  set (w1 := mkWorld h'
               (mkDensityRequest solver_state true false false method
                :: density_calls w)).
  rewrite (bind_run _ _ w w1 r')
    by (unfold attach_state_densities; now rewrite Hp).
  rewrite (bind_run _ _ _ _ _ (deref_run r' w1 s' Hr')).
  apply bind_raise. unfold lift. now rewrite He.
Qed.

(** X17: on a state that has its difference densities and on which the
    calculator succeeds, [attach_state_properties] works in place: it
    returns the very object it was given, now carrying the state dipole
    moments; the other attributes of the object and all other objects
    keep their values, and the density provider is not invoked. *)
Theorem attach_state_properties_in_place (solver_state : ref)
    (method : option method_arg) (w : World) (s : SolverState)
    (diffdms : list matrix) (a : ndarray) :
  heap w !! solver_state = Some s ->
  state_diffdms s = Some diffdms ->
  state_dipole_moments AdcMethod_init HfDensityMatrix s method = inr a ->
  exists s' : SolverState,
    attach_state_properties AdcMethod_init HfDensityMatrix provider
      solver_state method w
    = (mkWorld (<[solver_state := s']> (heap w)) (density_calls w),
       inr solver_state)
    /\ attr_state_dipole_moments s' = Some a
    /\ attr_transition_dipole_moments s' = attr_transition_dipole_moments s
    /\ attr_oscillator_strengths s' = attr_oscillator_strengths s
    /\ same_inputs s s'.
Proof.
  intros Hw Hd Ha. eexists. split.
  - apply (run_attach_state_properties AdcMethod_init HfDensityMatrix
             provider solver_state method w s diffdms a Hw Hd Ha).
  - repeat split.
Qed.

End OrchestratorRuns.

Section EntryPoint.

Variable AdcMethod_init : string -> result AdcMethod.
Variable HfDensityMatrix : ReferenceState -> matrix.
Variable provider : DensityProvider.

(** X18: whenever both attributes it needs are present,
    [attach_transition_properties] succeeds, attaching one row of
    transition dipole moments per transition density and as many oscillator
    strengths as the shorter of the transition densities and the
    eigenvalues. *)
Theorem attach_transition_properties_counts (state : ref)
    (method : option method_arg) (w : World) (s : SolverState)
    (tdms dips : list matrix) :
  heap w !! state = Some s ->
  ground_to_excited_tdms s = Some tdms ->
  electric_dipole (operator_integrals (reference_state s)) = Some dips ->
  exists (w' : World) (s' : SolverState) (a : ndarray) (oscs : list R),
    attach_transition_properties provider state method w = (w', inr state)
    /\ heap w' !! state = Some s'
    /\ attr_transition_dipole_moments s' = Some a
    /\ attr_oscillator_strengths s' = Some oscs
    /\ length (np_iter a) = length tdms
    /\ length oscs = Nat.min (length tdms) (length (eigenvalues s)).
Proof.
  intros Hw Htdms Hd.
  assert (Ha : transition_dipole_moments s
               = inr (np_array
                        (map (fun tdm =>
                                map (fun comp => product_trace comp tdm) dips)
                             tdms))).
  { unfold transition_dipole_moments. now rewrite Htdms, Hd. }
  eexists _, _, _, _. split; [|split; [|split; [|split; [|split]]]].
  - apply (run_attach_transition_properties provider state method w s
             tdms _ Hw Htdms Ha).
  - apply lookup_insert_eq.
  - reflexivity.
  - reflexivity.
  - now rewrite np_array_iter, length_map.
  - now rewrite oscillator_strengths_length, np_array_iter, length_map.
Qed.

(** X19: running [attach_transition_properties] a second time on its own
    outcome changes nothing: the attached values are recomputed from the
    same densities, integrals and eigenvalues, and overwritten with equal
    values. *)
Theorem attach_transition_properties_idempotent (state : ref)
    (method : option method_arg) (w : World) (s : SolverState)
    (tdms : list matrix) (a : ndarray) :
  heap w !! state = Some s ->
  ground_to_excited_tdms s = Some tdms ->
  transition_dipole_moments s = inr a ->
  attach_transition_properties provider state method
    (attach_transition_properties provider state method w).1
  = attach_transition_properties provider state method w.
Proof.
  intros Hw Htdms Ha.
  rewrite (run_attach_transition_properties provider state method w s
             tdms a Hw Htdms Ha).
  cbn [fst].
  set (s1 := set_oscillator_strengths _ _).
  rewrite (run_attach_transition_properties provider state method _ s1
             tdms a (lookup_insert_eq _ _ _) Htdms Ha).
  cbn [heap density_calls]. now rewrite insert_insert_eq.
Qed.

(** X20: state properties come first and their failure is final.  When
    [state_properties] is set and the calculator raises on a state that has
    its difference densities, [attach_properties] raises that error whether
    or not transition properties were requested; the copy it made is left
    without attachments and the density provider is not invoked. *)
Theorem attach_properties_state_failure (r : ref)
    (transition_properties : bool) (method : option method_arg)
    (w : World) (s : SolverState) (diffdms : list matrix) (e : exn) :
  heap w !! r = Some s ->
  state_diffdms s = Some diffdms ->
  state_dipole_moments AdcMethod_init HfDensityMatrix s method = inl e ->
  exists r' : ref,
    attach_properties AdcMethod_init HfDensityMatrix provider r
      transition_properties true method w
    = (mkWorld (<[r' := s]> (heap w)) (density_calls w), inl e)
    /\ heap w !! r' = None.
Proof.
  intros Hw Hd He. exists (fresh (dom (heap w))).
  split; [|apply fresh_not_allocated].
  unfold attach_properties.
  rewrite (bind_run _ _ _ _ _ (copy_run _ _ _ Hw)).
  apply bind_raise.
  apply (run_attach_state_properties_raise AdcMethod_init HfDensityMatrix
           provider _ method _ s diffdms e);
    [apply lookup_insert_eq|exact Hd|exact He].
Qed.

(** X21: the whole pipeline on a state that has both kinds of densities.
    With both flags set and both calculators succeeding, [attach_properties]
    returns a new object carrying the three derived attributes next to the
    unchanged attributes of the input (the transition step does not disturb
    the state dipole moments attached before it); the rest of the store,
    the input object included, is as before and the density provider is
    not invoked. *)
Theorem attach_properties_all (r : ref) (method : option method_arg)
    (w : World) (s : SolverState) (diffdms tdms : list matrix)
    (dipoles moments : ndarray) :
  heap w !! r = Some s ->
  state_diffdms s = Some diffdms ->
  ground_to_excited_tdms s = Some tdms ->
  state_dipole_moments AdcMethod_init HfDensityMatrix s method
  = inr dipoles ->
  transition_dipole_moments s = inr moments ->
  exists (r' : ref) (s' : SolverState),
    attach_properties AdcMethod_init HfDensityMatrix provider r
      true true method w
    = (mkWorld (<[r' := s']> (heap w)) (density_calls w), inr r')
    /\ heap w !! r' = None
    /\ attr_state_dipole_moments s' = Some dipoles
    /\ attr_transition_dipole_moments s' = Some moments
    /\ attr_oscillator_strengths s'
       = Some (oscillator_strengths (np_iter moments) (eigenvalues s))
    /\ same_inputs s s'.
Proof.
  intros Hw Hd Htdms Hdip Hmom. exists (fresh (dom (heap w))).
  eexists. split; [|split; [apply fresh_not_allocated|]].
  - unfold attach_properties.
    rewrite (bind_run _ _ _ _ _ (copy_run _ _ _ Hw)).
    rewrite (bind_run _ _ _ _ _
               (run_attach_state_properties AdcMethod_init HfDensityMatrix
                  provider _ method _ s diffdms dipoles
                  (lookup_insert_eq _ _ _) Hd Hdip)).
    cbn [heap density_calls].
    rewrite (bind_run _ _ _ _ _
               (run_attach_transition_properties provider _ method _
                  (set_state_dipole_moments dipoles s) tdms moments
                  (lookup_insert_eq _ _ _) Htdms Hmom)).
    unfold ret. cbn [heap density_calls].
    now rewrite !insert_insert_eq.
  - repeat split.
Qed.

(** X22: what [attach_properties] asks of the density provider, for every
    store, provider and input: at most one request per property group that
    is switched on, each for exactly one kind of density (difference or
    ground-to-excited transition densities), each with the method it was
    given, and never for state-to-state transition densities. *)
Theorem attach_properties_requests (r : ref)
    (transition_properties state_properties : bool)
    (method : option method_arg) :
  requests (one_density_kind method)
    ((if state_properties then 1 else 0)
     + (if transition_properties then 1 else 0))
    (attach_properties AdcMethod_init HfDensityMatrix provider r
       transition_properties state_properties method).
Proof.
  unfold attach_properties.
  apply (requests_bind _ 0); [apply requests_silent, silent_copy|].
  intros r1. apply requests_bind.
  - destruct state_properties; [|apply requests_silent, silent_ret].
    unfold attach_state_properties.
    apply (requests_bind _ 0 1); [apply requests_silent, silent_deref|].
    intros s1. apply (requests_bind _ 1 0).
    + destruct (hasattr _).
      * apply (requests_weaken _ 0); [lia|]. apply requests_silent, silent_ret.
      * apply requests_provider. repeat split.
    + intros r2. apply requests_silent. repeat silent_step.
  - intros r2.
    apply (requests_weaken _ ((if transition_properties then 1 else 0) + 0));
      [lia|].
    apply requests_bind; [|intros r3; apply requests_silent, silent_ret].
    destruct transition_properties; [|apply requests_silent, silent_ret].
    unfold attach_transition_properties.
    apply (requests_bind _ 0 1); [apply requests_silent, silent_deref|].
    intros s1. apply (requests_bind _ 1 0).
    + destruct (hasattr _).
      * apply (requests_weaken _ 0); [lia|]. apply requests_silent, silent_ret.
      * apply requests_provider. repeat split.
    + intros r3. apply requests_silent. repeat silent_step.
Qed.

End EntryPoint.

Lemma example_world_full_lookup :
  heap example_world_full !! 1%positive = Some example_state_full.
Proof. reflexivity. Defined.

Lemma example_world_lookup :
  heap example_world !! 1%positive
  = Some (example_state (Label "adc2") None None).
Proof. reflexivity. Defined.

Lemma attach_transition_properties_in_place_witness :
  (attach_transition_properties failing_densities 1%positive None
     example_world_full).2
  = inr 1%positive.
Proof.
  destruct (attach_transition_properties_in_place failing_densities
              1%positive None example_world_full example_state_full
              [[[1%R]]] _ example_world_full_lookup eq_refl eq_refl)
    as (s' & Hrun & _).
  now rewrite Hrun.
Defined.

Lemma attach_transition_properties_no_integrals_witness :
  attach_transition_properties failing_densities 1%positive None
    example_world_no_integrals
  = (example_world_no_integrals,
     inl (ValueError
            "Reference state cannot provide electric dipole integrals.")).
Proof.
  assert (Hw : heap example_world_no_integrals !! 1%positive
               = Some (mkSolverState [(1 / 2)%R] (Label "adc2")
                         (mkReferenceState (mkOperatorIntegrals None)
                            [(3 / 10)%R; 0%R; 0%R])
                         example_ground None (Some [[[1%R]]]) None None
                         None None))
    by reflexivity.
  exact (attach_transition_properties_no_integrals failing_densities
           1%positive None example_world_no_integrals _ [[[1%R]]]
           Hw eq_refl eq_refl).
Defined.

Lemma attach_transition_properties_request_witness :
  density_calls
    (attach_transition_properties inplace_densities 1%positive None
       example_world).1
  = [mkDensityRequest 1%positive false true false None].
Proof.
  exact (attach_transition_properties_request inplace_densities 1%positive
           None example_world _ example_world_lookup eq_refl).
Defined.

Lemma attach_state_properties_request_witness :
  density_calls
    (attach_state_properties label_AdcMethod unit_HfDensityMatrix
       inplace_densities 1%positive None example_world).1
  = [mkDensityRequest 1%positive true false false None].
Proof.
  exact (attach_state_properties_request label_AdcMethod
           unit_HfDensityMatrix inplace_densities 1%positive None
           example_world _ example_world_lookup eq_refl).
Defined.

Lemma attach_state_properties_provider_raises_witness :
  attach_state_properties label_AdcMethod unit_HfDensityMatrix
    failing_densities 1%positive None example_world
  = (mkWorld (heap example_world)
       [mkDensityRequest 1%positive true false false None],
     inl (OtherError "no densities")).
Proof.
  exact (attach_state_properties_provider_raises label_AdcMethod
           unit_HfDensityMatrix failing_densities 1%positive None
           example_world _ (heap example_world) (OtherError "no densities")
           example_world_lookup eq_refl eq_refl).
Defined.

Lemma attach_state_properties_raises_after_provider_witness :
  (attach_state_properties label_AdcMethod unit_HfDensityMatrix
     inplace_densities 1%positive None example_world_adc1_bare).2
  = inl (NotImplementedError
           "ADC(0) and ADC(1) state dipole moments not yet implemented.").
Proof.
  assert (Hw : heap example_world_adc1_bare !! 1%positive
               = Some (example_state (Label "adc1") None None))
    by reflexivity.
  assert (Hp : inplace_densities 1%positive true false false None
                 (heap example_world_adc1_bare)
               = (<[1%positive :=
                      example_state (Label "adc1")
                        (Some [[[(2 / 10)%R]]]) None]>
                    (heap example_world_adc1_bare),
                  inr 1%positive))
    by reflexivity.
  rewrite (attach_state_properties_raises_after_provider label_AdcMethod
             unit_HfDensityMatrix inplace_densities 1%positive None
             example_world_adc1_bare _ _ _ 1%positive
             (NotImplementedError
                "ADC(0) and ADC(1) state dipole moments not yet implemented.")
             Hw eq_refl Hp (lookup_insert_eq _ _ _) eq_refl).
  reflexivity.
Defined.

Lemma attach_state_properties_in_place_witness :
  (attach_state_properties label_AdcMethod unit_HfDensityMatrix
     failing_densities 1%positive None example_world_full).2
  = inr 1%positive.
Proof.
  destruct (attach_state_properties_in_place label_AdcMethod
              unit_HfDensityMatrix failing_densities 1%positive None
              example_world_full example_state_full [[[(2 / 10)%R]]] _
              example_world_full_lookup eq_refl eq_refl)
    as (s' & Hrun & _).
  now rewrite Hrun.
Defined.

Lemma attach_transition_properties_counts_witness :
  (attach_transition_properties failing_densities 1%positive None
     example_world_full).2
  = inr 1%positive.
Proof.
  destruct (attach_transition_properties_counts failing_densities
              1%positive None example_world_full example_state_full
              [[[1%R]]] [[[1%R]]; [[0%R]]; [[0%R]]]
              example_world_full_lookup eq_refl eq_refl)
    as (w' & s' & a & oscs & Hrun & _).
  now rewrite Hrun.
Defined.

Lemma attach_transition_properties_idempotent_witness :
  attach_transition_properties failing_densities 1%positive None
    (attach_transition_properties failing_densities 1%positive None
       example_world_full).1
  = attach_transition_properties failing_densities 1%positive None
      example_world_full.
Proof.
  exact (attach_transition_properties_idempotent failing_densities
           1%positive None example_world_full example_state_full
           [[[1%R]]] _ example_world_full_lookup eq_refl eq_refl).
Defined.

Lemma attach_properties_state_failure_witness :
  (attach_properties label_AdcMethod unit_HfDensityMatrix failing_densities
     1%positive true true None example_world_adc1).2
  = inl (NotImplementedError
           "ADC(0) and ADC(1) state dipole moments not yet implemented.").
Proof.
  assert (Hw : heap example_world_adc1 !! 1%positive
               = Some (example_state (Label "adc1")
                         (Some [[[(2 / 10)%R]]]) (Some [[[1%R]]])))
    by reflexivity.
  destruct (attach_properties_state_failure label_AdcMethod
              unit_HfDensityMatrix failing_densities 1%positive true None
              example_world_adc1 _ [[[(2 / 10)%R]]]
              (NotImplementedError
                 "ADC(0) and ADC(1) state dipole moments not yet implemented.")
              Hw eq_refl eq_refl)
    as (r' & Hrun & _).
  now rewrite Hrun.
Defined.

Lemma attach_properties_all_witness :
  exists r' : ref,
    (attach_properties label_AdcMethod unit_HfDensityMatrix
       failing_densities 1%positive true true None example_world_full).2
    = inr r'
    /\ heap example_world_full !! r' = None.
Proof.
  destruct (attach_properties_all label_AdcMethod unit_HfDensityMatrix
              failing_densities 1%positive None example_world_full
              example_state_full [[[(2 / 10)%R]]] [[[1%R]]] _ _
              example_world_full_lookup eq_refl eq_refl eq_refl eq_refl)
    as (r' & s' & Hrun & Hnone & _).
  exists r'. split; [now rewrite Hrun|exact Hnone].
Defined.

(** ** The orchestrators: which object comes back, and what the method is
    for *)

Lemma returns_ret {A : Type} (post : A -> Prop) (a : A) :
  post a -> returns post (ret a).
Proof. intros Ha w a' [= <-]. exact Ha. Qed.

Lemma returns_bind {A B : Type} (mid : A -> Prop) (post : B -> Prop)
    (m : M A) (k : A -> M B) :
  returns mid m -> (forall a : A, mid a -> returns post (k a)) ->
  returns post (bind m k).
Proof.
  intros Hm Hk w b. unfold bind. specialize (Hm w).
  destruct (m w) as [w' [e|a]]; cbn [snd] in *; [discriminate|].
  apply (Hk a (Hm a eq_refl)).
Qed.

Lemma returns_any {A : Type} (m : M A) : returns (fun _ => True) m.
Proof. intros w a _. exact I. Qed.

Lemma returns_attach_state_densities (provider : DensityProvider)
    (state : ref) (sd gt st : bool) (method : option method_arg) :
  returns_its_argument provider ->
  returns (fun r' => r' = state)
    (attach_state_densities provider state sd gt st method).
Proof.
  intros Hp w r'. unfold attach_state_densities.
  destruct (provider state sd gt st method (heap w)) as [h' res] eqn:Hrun.
  cbn [snd]. intros ->. exact (Hp _ _ _ _ _ _ _ _ Hrun).
Qed.

Lemma returns_attach_state_properties
    (AdcMethod_init : string -> result AdcMethod)
    (HfDensityMatrix : ReferenceState -> matrix)
    (provider : DensityProvider) (solver_state : ref)
    (method : option method_arg) :
  returns_its_argument provider ->
  returns (fun r' => r' = solver_state)
    (attach_state_properties AdcMethod_init HfDensityMatrix provider
       solver_state method).
Proof.
  intros Hp. unfold attach_state_properties.
  eapply returns_bind; [apply returns_any|]. intros s _.
  eapply returns_bind with (mid := fun r' => r' = solver_state).
  { destruct (hasattr _);
      [now apply returns_ret|now apply returns_attach_state_densities]. }
  intros r' ->.
  repeat (eapply returns_bind; [apply returns_any|]; intros ? _).
  now apply returns_ret.
Qed.

Lemma returns_attach_transition_properties (provider : DensityProvider)
    (state : ref) (method : option method_arg) :
  returns_its_argument provider ->
  returns (fun r' => r' = state)
    (attach_transition_properties provider state method).
Proof.
  intros Hp. unfold attach_transition_properties.
  eapply returns_bind; [apply returns_any|]. intros s _.
  eapply returns_bind with (mid := fun r' => r' = state).
  { destruct (hasattr _);
      [now apply returns_ret|now apply returns_attach_state_densities]. }
  intros r' ->.
  repeat (eapply returns_bind; [apply returns_any|]; intros ? _).
  now apply returns_ret.
Qed.

(** X23: as long as the density provider hands back the object it was
    given, what [attach_properties] returns is the copy it made on entry:
    an object that did not exist in the caller's store, for every flag
    combination and whether or not the provider was needed. *)
Theorem attach_properties_returns_copy
    (AdcMethod_init : string -> result AdcMethod)
    (HfDensityMatrix : ReferenceState -> matrix)
    (provider : DensityProvider) (r r' : ref)
    (transition_properties state_properties : bool)
    (method : option method_arg) (w : World) :
  returns_its_argument provider ->
  (attach_properties AdcMethod_init HfDensityMatrix provider r
     transition_properties state_properties method w).2 = inr r' ->
  r' = fresh (dom (heap w)) /\ heap w !! r' = None.
Proof.
  intros Hp Hrun.
  assert (Heq : r' = fresh (dom (heap w))).
  { revert Hrun. unfold attach_properties. unfold bind at 1. unfold copy.
    destruct (heap w !! r) as [s|]; [|discriminate].
    generalize (fresh (dom (heap w))). intros f.
    match goal with |- (?m ?w1).2 = _ -> _ =>
      assert (Hret : returns (fun x => x = f) m);
        [|intros Hrun; exact (Hret w1 r' Hrun)]
    end.
    eapply returns_bind with (mid := fun x => x = f).
    { destruct state_properties;
        [now apply returns_attach_state_properties|now apply returns_ret]. }
    intros r1 ->.
    eapply returns_bind with (mid := fun x => x = f).
    { destruct transition_properties;
        [now apply returns_attach_transition_properties
        |now apply returns_ret]. }
    intros r2 ->. now apply returns_ret. }
  split; [exact Heq|]. rewrite Heq. apply fresh_not_allocated.
Qed.

Lemma inplace_densities_returns_its_argument :
  returns_its_argument inplace_densities.
Proof.
  intros state sd gt st method h h' r' Hp.
  unfold inplace_densities, raise in Hp.
  destruct (h !! state); [|discriminate Hp].
  now injection Hp as _ <-.
Qed.

Lemma attach_properties_returns_copy_witness :
  heap example_world !! 2%positive = None.
Proof.
  refine (proj2 (attach_properties_returns_copy label_AdcMethod
                   unit_HfDensityMatrix inplace_densities 1%positive
                   2%positive true true None example_world
                   inplace_densities_returns_its_argument _)).
  vm_compute. reflexivity.
Defined.

Lemma run_attach_transition_properties_raise (provider : DensityProvider)
    (state : ref) (method : option method_arg) (w : World)
    (s : SolverState) (tdms : list matrix) (e : exn) :
  heap w !! state = Some s ->
  ground_to_excited_tdms s = Some tdms ->
  transition_dipole_moments s = inl e ->
  attach_transition_properties provider state method w = (w, inl e).
Proof.
  intros Hw Htdms He. unfold attach_transition_properties.
  rewrite (bind_run _ _ _ _ _ (deref_run _ _ _ Hw)).
  rewrite Htdms. cbn [hasattr].
  rewrite (bind_run (ret state) _ w w state eq_refl).
  rewrite (bind_run _ _ _ _ _ (deref_run _ _ _ Hw)).
  apply bind_raise. unfold lift. now rewrite He.
Qed.

(** X24: for transition properties the method only matters to the density
    provider: on a state that already has its transition densities, the
    outcome of [attach_transition_properties] is the same for every method
    argument. *)
Theorem attach_transition_properties_method_irrelevant
    (provider : DensityProvider) (state : ref)
    (method method' : option method_arg) (w : World) (s : SolverState)
    (tdms : list matrix) :
  heap w !! state = Some s ->
  ground_to_excited_tdms s = Some tdms ->
  attach_transition_properties provider state method w
  = attach_transition_properties provider state method' w.
Proof.
  intros Hw Htdms.
  destruct (transition_dipole_moments s) as [e|a] eqn:Hrun.
  - now rewrite !(run_attach_transition_properties_raise provider state _ w
                    s tdms e Hw Htdms Hrun).
  - now rewrite !(run_attach_transition_properties provider state _ w
                    s tdms a Hw Htdms Hrun).
Qed.

Lemma attach_transition_properties_method_irrelevant_witness :
  attach_transition_properties failing_densities 1%positive None
    example_world_full
  = attach_transition_properties failing_densities 1%positive
      (Some (Label "adc0")) example_world_full.
Proof.
  exact (attach_transition_properties_method_irrelevant failing_densities
           1%positive None (Some (Label "adc0")) example_world_full
           example_state_full [[[1%R]]] example_world_full_lookup eq_refl).
Defined.

(** * The values in binary64 *)

(** ** Oscillator strengths *)





(** *** No output is negative *)

Lemma binary_round_aux_not_negative (m e : Z) (l : location) :
  SF_not_negative (binary_round_aux prec emax false m e l) = true.
Proof.
  unfold binary_round_aux.
  destruct (shr_fexp prec emax m e l) as [mrs1 e1].
  destruct (shr_fexp prec emax _ e1 loc_Exact) as [mrs2 e2].
  destruct (shr_m mrs2); [reflexivity| |reflexivity].
  now destruct (Z.leb e2 (Z.sub emax prec)).
Qed.

Lemma SFabs_not_negative (x : spec_float) :
  SF_not_negative (SFabs x) = true.
Proof. now destruct x. Qed.

Lemma SFmul_self_not_negative (x : spec_float) :
  SF_not_negative (SFmul prec emax x x) = true.
Proof.
  destruct x as [s|s| |s m e]; cbn [SFmul SF_not_negative].
  - reflexivity.
  - now destruct s.
  - reflexivity.
  - replace (xorb s s) with false by (now destruct s).
    apply binary_round_aux_not_negative.
Qed.

Lemma SFmul_not_negative (x y : spec_float) :
  SF_not_negative x = true -> SF_not_negative y = true ->
  SF_not_negative (SFmul prec emax x y) = true.
Proof.
  destruct x as [sx|sx| |sx mx ex], y as [sy|sy| |sy my ey];
    cbn [SFmul SF_not_negative]; try reflexivity;
    intros Hx Hy;
    try (apply negb_true_iff in Hx; subst sx);
    try (apply negb_true_iff in Hy; subst sy);
    try reflexivity.
  apply binary_round_aux_not_negative.
Qed.

Lemma not_negative_of_SF (x : float) :
  SF_not_negative (Prim2SF x) = true -> not_negative x.
Proof.
  unfold not_negative, PrimFloat.is_nan.
  rewrite FloatAxioms.leb_spec, FloatAxioms.eqb_spec.
  replace (Prim2SF 0) with (S754_zero false) by reflexivity.
  destruct (Prim2SF x) as [s|s| |s m e]; cbn [SF_not_negative].
  - intros _. now left.
  - intros H. apply negb_true_iff in H. subst s. now left.
  - intros _. now right.
  - intros H. apply negb_true_iff in H. subst s. now left.
Qed.

Lemma Forall_zip_with_all {A B C : Type} (P : C -> Prop) (f : A -> B -> C)
    (l : list A) (k : list B) :
  (forall (a : A) (b : B), P (f a b)) -> Forall P (zip_with f l k).
Proof.
  intros Hf. revert k. induction l as [|a l IH]; intros [|b k]; simpl;
    constructor; [apply Hf|apply IH].
Qed.

(** C8, as the code has it: whatever the vectors and the signs of the
    energies, no element of the output of [oscillator_strengths] is
    negative: every element is non-negative or NaN. *)
Theorem oscillator_strengths_not_negative
    (tdms : list (list float)) (es : list float) :
  Forall not_negative (F64.oscillator_strengths tdms es).
Proof.
  unfold F64.oscillator_strengths, F64.np_scale, F64.np_square, F64.np_abs.
  apply Forall_fmap, Forall_zip_with_all. intros tdm ev. cbn [compose].
  apply not_negative_of_SF.
  rewrite !FloatAxioms.mul_spec, FloatAxioms.abs_spec. unfold SF64mul.
  apply SFmul_not_negative; [reflexivity|].
  apply SFmul_not_negative;
    [apply SFmul_self_not_negative|apply SFabs_not_negative].
Qed.

(** For the finite vector [1e200, 0, 0] and the energy 0.0 the squared norm
    overflows and the output is NaN, which is not non-negative. *)
Lemma oscillator_strengths_nan :
  F64.oscillator_strengths [[1e200; 0; 0]%float] [0%float] = [nan]
  /\ PrimFloat.leb 0 nan = false.
Proof. split; vm_compute; reflexivity. Qed.

(** ** State dipole moments *)

Section StateDipolesBinary64.

Variable product_trace : F64.matrix -> F64.matrix -> float.
Variable AdcMethod_init : string -> result AdcMethod.
Variable HfDensityMatrix : F64.ReferenceState -> F64.matrix.

Lemma binary64_state_dipole_moments_value (state : F64.SolverState)
    (method : option method_arg) (diffdms dips : list F64.matrix)
    (m : AdcMethod) :
  F64.state_diffdms state = Some diffdms ->
  diffdms <> [] ->
  F64.electric_dipole (F64.operator_integrals (F64.reference_state state))
  = Some dips ->
  length (F64.nuclear_dipole (F64.reference_state state)) = length dips ->
  F64.effective_method AdcMethod_init state method = inr m ->
  property_method m <> "adc0"%string ->
  property_method m <> "adc1"%string ->
  F64.state_dipole_moments product_trace AdcMethod_init HfDensityMatrix
    state method
  = inr (F64.Arr2
           (map (fun ddm =>
                   zip_with PrimFloat.add
                     (zip_with PrimFloat.sub
                        (map (fun comp =>
                                (product_trace comp
                                   (HfDensityMatrix
                                      (F64.reference_state state))
                                 + product_trace comp
                                     (F64.mp2_diffdm
                                        (F64.ground_state state)))%float)
                             dips)
                        (F64.nuclear_dipole (F64.reference_state state)))
                     (map (fun comp => product_trace comp ddm) dips))
                diffdms)).
Proof.
  intros Hd Hne Hi Hnuc Hm H0 H1. unfold F64.state_dipole_moments.
  rewrite Hd, Hi, Hm. cbn [result_bind].
  destruct (existsb _ _) eqn:Hex.
  { apply property_method_excluded in Hex. tauto. }
  unfold F64.np_sub, F64.np_add, F64.np_binop.
  rewrite broadcast_axis_same by (now rewrite length_map).
  cbn [result_bind].
  destruct diffdms as [|ddm diffdms]; [congruence|].
  cbn [map F64.np_array].
  rewrite <- (map_cons
                (fun ddm0 => map (fun comp => product_trace comp ddm0) dips)).
  match goal with
  | |- context [result_mapM (fun row => broadcast_axis _ _ ?gs row)] =>
      rewrite (result_mapM_inr _ (zip_with PrimFloat.add gs))
  end.
  - cbn [result_bind]. now rewrite <- list_fmap_compose.
  - apply Forall_fmap, Forall_forall. intros ddm0 _. simpl.
    apply broadcast_axis_same.
    rewrite length_zip_with, !length_map. lia.
Qed.

(** C4, as the code has it: with N >= 1 difference densities, three dipole
    integrals, a nuclear dipole 3-vector and an effective method other than
    adc0 and adc1, [state_dipole_moments] returns N 3-vectors, the i-th
    being the ground-state dipole plus the contraction vector of the i-th
    difference density, where the k-th ground-state component is
    trace(dipole_k, reference density) + trace(dipole_k, mp2 correction)
    - nuclear_dipole_k, every operation rounded to binary64; when the
    electronic traces sum to [1.0, 0, 0], the nuclear dipole is
    [0.3, 0, 0] and the state contraction is [0.2, 0, 0], the vector is
    [0.8999999999999999, 0, 0]. *)
Theorem state_dipole_moments_binary64 (state : F64.SolverState)
    (method : option method_arg) (diffdms dips : list F64.matrix)
    (m : AdcMethod) :
  F64.state_diffdms state = Some diffdms ->
  diffdms <> [] ->
  F64.electric_dipole (F64.operator_integrals (F64.reference_state state))
  = Some dips ->
  length dips = 3 ->
  length (F64.nuclear_dipole (F64.reference_state state)) = 3 ->
  F64.effective_method AdcMethod_init state method = inr m ->
  property_method m <> "adc0"%string ->
  property_method m <> "adc1"%string ->
  exists rows : list (list float),
    F64.state_dipole_moments product_trace AdcMethod_init HfDensityMatrix
      state method
    = inr (F64.Arr2 rows)
    /\ length rows = length diffdms
    /\ (forall (i : nat) (ddm : F64.matrix),
           diffdms !! i = Some ddm ->
           exists row : list float,
             rows !! i = Some row
             /\ length row = 3
             /\ (forall (k : nat) (comp : F64.matrix) (nuc : float),
                    dips !! k = Some comp ->
                    F64.nuclear_dipole (F64.reference_state state) !! k
                    = Some nuc ->
                    row !! k
                    = Some (product_trace comp
                              (HfDensityMatrix (F64.reference_state state))
                            + product_trace comp
                                (F64.mp2_diffdm (F64.ground_state state))
                            - nuc
                            + product_trace comp ddm)%float)
             /\ (map (fun comp =>
                        (product_trace comp
                           (HfDensityMatrix (F64.reference_state state))
                         + product_trace comp
                             (F64.mp2_diffdm (F64.ground_state state)))%float)
                     dips
                 = [1; 0; 0]%float ->
                 F64.nuclear_dipole (F64.reference_state state)
                 = [0.3; 0; 0]%float ->
                 map (fun comp => product_trace comp ddm) dips
                 = [0.2; 0; 0]%float ->
                 row = [0.8999999999999999; 0; 0]%float)).
Proof.
  intros Hd Hne Hi Hlen Hnuc Hm H0 H1.
  eexists. split; [|split].
  - apply (binary64_state_dipole_moments_value state method diffdms dips m);
      try assumption. congruence.
  - now rewrite length_map.
  - intros i ddm Hddm. eexists. split; [|split; [|split]].
    + rewrite list_lookup_fmap, Hddm. reflexivity.
    + rewrite !length_zip_with, !length_map. lia.
    + intros k comp nuc Hk Hn.
      rewrite !lookup_zip_with, !list_lookup_fmap, Hk, Hn.
      reflexivity.
    + intros Htr Hnd Hct. rewrite Htr, Hnd, Hct.
      vm_compute. reflexivity.
Qed.

End StateDipolesBinary64.

(** With no excited state at all, the sum of the ground-state 3-vector and
    the empty array cannot be broadcast: the call raises. *)
Lemma state_dipole_moments_binary64_no_states :
  F64.state_diffdms (example_state64 (Label "adc2") (Some [])) = Some []
  /\ F64.state_dipole_moments rowwise_product_trace label_AdcMethod
       unit_HfDensityMatrix64 (example_state64 (Label "adc2") (Some []))
       None
     = inl broadcast_error.
Proof. split; vm_compute; reflexivity. Qed.

(** The scenario of the specification: electronic traces 0.6 + 0.4, nuclear
    dipole [0.3, 0, 0], state contraction [0.2, 0, 0]. *)
Lemma state_dipole_moments_binary64_witness :
  exists rows : list (list float),
    F64.state_dipole_moments rowwise_product_trace label_AdcMethod
      unit_HfDensityMatrix64
      (example_state64 (Label "adc2") (Some [[[0.2%float]]])) None
    = inr (F64.Arr2 rows)
    /\ rows !! 0%nat = Some [0.8999999999999999; 0; 0]%float.
Proof.
  destruct (state_dipole_moments_binary64 rowwise_product_trace
              label_AdcMethod unit_HfDensityMatrix64
              (example_state64 (Label "adc2") (Some [[[0.2%float]]]))
              None [[[0.2%float]]] [[[1%float]]; [[0%float]]; [[0%float]]]
              (mkAdcMethod "adc2" "adc2")
              eq_refl ltac:(discriminate) eq_refl eq_refl eq_refl eq_refl
              ltac:(discriminate) ltac:(discriminate))
    as (rows & Hrows & _ & Hrow).
  destruct (Hrow 0%nat [[0.2%float]] eq_refl)
    as (row & Hr & _ & _ & Hscenario).
  exists rows. split; [exact Hrows|].
  rewrite Hr. f_equal. apply Hscenario; vm_compute; reflexivity.
Defined.
